(** * Vlinder server tier: reverse proxy and log sink

    A shallow embedding of [server/reverse_proxy.py] and
    [server/log_server.py], and the properties of the routing tier that
    follow from it.

    Conventions.
    - A Python [str] is a [string], one character per code point.  All text
      the proxy handles (request line, header names and values, reason
      phrases) is decoded from the wire as ISO-8859-1 by [http.server] and
      [http.client], so code points stay below 256.
    - [bytes] is a list of [byte].
    - The handlers run inside [http.server.BaseHTTPRequestHandler]; the few
      methods of that class and of [urllib.request] that the source calls
      are modelled in [Module Py] next to the string helpers.
    - [print] and [log_message] only write to the diagnostic stream and do
      not influence responses, backend calls or files; they are left out
      (the stream is taken to accept any text the log file accepts).
    - Writing to the client is taken to succeed: a client that goes away
      while the response is written is not modelled. *)

From Stdlib Require Import ZArith NArith Ascii String List Bool Lia.
From Stdlib Require Import DecimalString DecimalNat.
From stdpp Require Import base option gmap strings list.
Import ListNotations.

#[local] Set Warnings "-register-all".

Local Open Scope string_scope.
Local Open Scope Z_scope.

Abbreviation bytes := (list Byte.byte).

(* ===================================================================== *)
(** * Python runtime pieces used by the sources                          *)
(* ===================================================================== *)

Module Py.

(** ** str methods *)

Definition is_upper_ascii (c : ascii) : bool :=
  let n := N_of_ascii c in ((65 <=? n) && (n <=? 90))%N.

Definition is_lower_ascii (c : ascii) : bool :=
  let n := N_of_ascii c in ((97 <=? n) && (n <=? 122))%N.

Definition lower_char (c : ascii) : ascii :=
  if is_upper_ascii c then ascii_of_N (N_of_ascii c + 32) else c.

Definition upper_char (c : ascii) : ascii :=
  if is_lower_ascii c then ascii_of_N (N_of_ascii c - 32) else c.

(** [s.lower()].  Header names are tokens over the characters 33..126, where
    Python's case mapping is the ASCII one. *)
Fixpoint lower (s : string) : string :=
  match s with
  | EmptyString => EmptyString
  | String c s' => String (lower_char c) (lower s')
  end.

(** [s.capitalize()]: first character upper-cased, the rest lower-cased. *)
Definition capitalize (s : string) : string :=
  match s with
  | EmptyString => EmptyString
  | String c s' => String (upper_char c) (lower s')
  end.

(** [s.startswith(p)]. *)
Definition startswith (s p : string) : bool := String.prefix p s.

(** [str(n)] for a non-negative integer such as [len(body)]. *)
Definition str_of_nat (n : nat) : string :=
  NilZero.string_of_uint (Nat.to_uint n).

(** [s.encode()] (UTF-8) for text whose code points are below 256. *)
Definition encode_char (c : ascii) : bytes :=
  let n := N_of_ascii c in
  if (n <? 128)%N then [byte_of_ascii c]
  else [byte_of_ascii (ascii_of_N (192 + n / 64));
        byte_of_ascii (ascii_of_N (128 + n mod 64))].

Fixpoint encode (s : string) : bytes :=
  match s with
  | EmptyString => []
  | String c s' => encode_char c ++ encode s'
  end.

(** ** int(str) *)

(** Characters [int] and [str.strip] treat as white space, among the code
    points below 256. *)
Definition is_space (c : ascii) : bool :=
  let n := N_of_ascii c in
  (((9 <=? n) && (n <=? 13)) || ((28 <=? n) && (n <=? 32))
   || (n =? 133) || (n =? 160))%N.

Definition is_digit (c : ascii) : bool :=
  let n := N_of_ascii c in ((48 <=? n) && (n <=? 57))%N.

(** [s.isdigit()] over the ASCII digits, true of the empty string too. *)
Definition all_digits (s : string) : bool :=
  forallb is_digit (list_ascii_of_string s).

Fixpoint lstrip (s : string) : string :=
  match s with
  | EmptyString => EmptyString
  | String c s' => if is_space c then lstrip s' else s
  end.

Fixpoint rstrip (s : string) : string :=
  match s with
  | EmptyString => EmptyString
  | String c s' =>
      match rstrip s' with
      | EmptyString => if is_space c then EmptyString else String c EmptyString
      | r => String c r
      end
  end.

(** Decimal digits with single underscores allowed between digits.
    [after_digit] tells whether the previous character was a digit. *)
Fixpoint int_digits (s : string) (acc : Z) (after_digit : bool) : option Z :=
  match s with
  | EmptyString => if after_digit then Some acc else None
  | String c s' =>
      if is_digit c then
        int_digits s' (10 * acc + (Z.of_N (N_of_ascii c) - 48)) true
      else if Ascii.eqb c "_" then
        if after_digit then int_digits s' acc false else None
      else None
  end.

(** [int(s)] for a [str] argument: [None] stands for [ValueError]. *)
Definition int_of_str (s : string) : option Z :=
  match rstrip (lstrip s) with
  | String "-" d => Z.opp <$> int_digits d 0 false
  | String "+" d => int_digits d 0 false
  | d => int_digits d 0 false
  end.

(** ** email.message.Message, as [self.headers] and [response.headers] *)

(** The header lines in arrival order; a name may occur more than once. *)
Abbreviation Message := (list (string * string)).

(** [msg.get(name)] and [msg[name]]: the value of the first header whose
    name matches, compared case-insensitively; [None] when there is none. *)
Fixpoint msg_get (msg : Message) (name : string) : option string :=
  match msg with
  | [] => None
  | (k, v) :: rest =>
      if String.eqb (lower k) (lower name) then Some v else msg_get rest name
  end.

(** A Python [dict] with [str] keys: the keys are distinct and kept in
    insertion order. *)
Abbreviation Dict := (list (string * string)).

Fixpoint dict_set (d : Dict) (k v : string) : Dict :=
  match d with
  | [] => [(k, v)]
  | (k', v') :: rest =>
      if String.eqb k' k then (k', v) :: rest else (k', v') :: dict_set rest k v
  end.

(** [dict(msg)].  [Message] offers [keys()] and [__getitem__], so [dict]
    walks [msg.keys()] (every header line, repeats included) and stores
    [msg[k]] under each [k]. *)
Definition dict_of_message (msg : Message) : Dict :=
  fold_left
    (fun d k => match msg_get msg k with
                | Some v => dict_set d k v
                | None => d  (* not reached: [k] is a key of [msg] *)
                end)
    (map fst msg) [].

(** ** urllib.request *)

(** A [urllib.request.Request].  [headers] is the object's header dict, as
    [add_header] fills it; what [http.client] adds on the wire by itself
    (the backend's own Host, Connection: close, ...) is not part of it. *)
Record Request := mkRequest {
  full_url : string;
  data : option bytes;
  method : string;
  headers : gmap string string
}.

Definition Request_new (url : string) (data : option bytes) (method : string)
  : Request :=
  mkRequest url data method ∅.

(** [Request.add_header]: [self.headers[key.capitalize()] = val]. *)
Definition add_header (key val : string) (req : Request) : Request :=
  mkRequest (full_url req) (data req) (method req)
            (<[capitalize key := val]> (headers req)).

(** What sending a request comes to: the outcome of building it, of
    [urlopen(req, timeout=t)] and of [response.read()]. *)
Inductive UrlResult :=
| Response (status : Z) (headers : Message) (body : bytes)
    (** the [with] body is entered *)
| HTTPError (code : Z) (reason : string) (headers : Message) (fp : bytes)
    (** [urllib.error.HTTPError]; [fp] is the backend's error body *)
| OtherError (text : string).
    (** any other [Exception]; [text] is [str(e)] *)

(** ** http.server.BaseHTTPRequestHandler: the response side *)

(** What has been handed to the client connection so far. *)
Record Conn := mkConn {
  status_line : option Z;
  sent_headers : list (string * string);
  headers_ended : bool;
  wfile : bytes
}.

Definition fresh_conn : Conn := mkConn None [] false [].

Definition send_header (k v : string) (c : Conn) : Conn :=
  mkConn (status_line c) (sent_headers c ++ [(k, v)]) (headers_ended c)
         (wfile c).

Definition end_headers (c : Conn) : Conn :=
  mkConn (status_line c) (sent_headers c) true (wfile c).

Definition wfile_write (b : bytes) (c : Conn) : Conn :=
  mkConn (status_line c) (sent_headers c) (headers_ended c) (wfile c ++ b).

Section SendResponse.
(** [self.version_string()] and [self.date_time_string()]. *)
Variables (version_string date_time_string : string).

(** [send_response(code)]: the status line, then the [Server] and [Date]
    headers. *)
Definition send_response (code : Z) (c : Conn) : Conn :=
  send_header "Date" date_time_string
    (send_header "Server" version_string
       (mkConn (Some code) (sent_headers c) (headers_ended c) (wfile c))).
End SendResponse.

End Py.

(* ===================================================================== *)
(** * server/reverse_proxy.py                                            *)
(* ===================================================================== *)

Module ReverseProxy.
Import Py.

Definition PROXY_PORT : Z := 8000.
Definition ASSET_SERVER_URL : string := "http://localhost:8002".
Definition LOG_SERVER_URL : string := "http://localhost:8001".

(** The request as the handler object holds it: [self.path],
    [self.headers], and the bytes [self.rfile] yields before end of file. *)
Record Handler := mkHandler {
  path : string;
  headers : Message;
  rfile : bytes
}.

(** [self.rfile.read(n)] for positive [n]: at most [n] bytes. *)
Definition rfile_read (self : Handler) (n : Z) : bytes :=
  take (Z.to_nat n) (rfile self).

(** Effects of one request: what went to the client and which requests
    the handler sent to a backend, each with its [timeout] argument. *)
Record State := mkState {
  conn : Conn;
  calls : list (Request * Z)
}.

Definition initial : State := mkState fresh_conn [].

Definition on_conn (f : Conn -> Conn) (st : State) : State :=
  mkState (f (conn st)) (calls st).

Inductive Exn := ValueError.

(** A handler method either returns or lets an exception escape. *)
Inductive Outcome :=
| Returned (st : State)
| Raised (e : Exn) (st : State).

Definition state_of (o : Outcome) : State :=
  match o with Returned st | Raised _ st => st end.

(** The header names [_proxy_request] does not copy. *)
Definition not_copied : list string := ["host"; "connection"; "content-length"].

Definition is_copied (header : string) : bool :=
  negb (existsb (String.eqb (lower header)) not_copied).

(** Line 57: the backend header lines relayed to the client. *)
Definition is_relayed (header : string) : bool :=
  negb (String.eqb (lower header) "connection").

(** Python truth value of [body]: neither [None] nor empty. *)
Definition truthy (body : option bytes) : bool :=
  match body with Some (_ :: _) => true | _ => false end.

Definition body_len (body : option bytes) : nat :=
  match body with Some b => length b | None => 0%nat end.

(** Lines 40-41: the body of the loop over [headers.items()]. *)
Definition copy_step (req : Request) (item : string * string) : Request :=
  let '(header, value) := item in
  if is_copied header then add_header header value req else req.

(** Lines 35-45: the [Request] handed to [urlopen].  Every caller passes a
    dict for [headers]. *)
Definition build_request (target_url method : string) (body : option bytes)
    (headers : Dict) : Request :=
  let req := Request_new target_url body method in
  let req :=
    match headers with
    | [] => req
    | _ => fold_left copy_step headers req
    end in
  if truthy body
  then add_header "Content-Length" (str_of_nat (body_len body)) req
  else req.

Definition cors_origin : string * string :=
  ("Access-Control-Allow-Origin", "*").
Definition cors_methods : string * string :=
  ("Access-Control-Allow-Methods", "GET, POST, OPTIONS").
Definition cors_headers : string * string :=
  ("Access-Control-Allow-Headers", "Content-Type, Content-Encoding").

(** The methods the class defines; [handle_one_request] calls
    [do_<command>]. *)
Inductive Method := GET | POST | OPTIONS | PUT | DELETE.

Inductive Backend := LogSink | Assets.

Definition base_url (b : Backend) : string :=
  match b with LogSink => LOG_SERVER_URL | Assets => ASSET_SERVER_URL end.

Section Proxy.
Variables (version_string date_time_string : string).
(** The network and the backends behind it. *)
Variable urlopen : Request -> Z -> UrlResult.

Local Abbreviation send_response :=
  (Py.send_response version_string date_time_string).

(** Lines 56-58: relay the backend's header lines. *)
Definition relay_headers (hs : Message) (c : Conn) : Conn :=
  fold_left
    (fun c '(header, value) =>
       if is_relayed header then send_header header value c else c)
    hs c.

Definition _proxy_request (target_url method : string)
    (body : option bytes) (headers : Dict) (st : State) : State :=
  let req := build_request target_url method body headers in
  let st := mkState (conn st) (calls st ++ [(req, 10)]) in
  match urlopen req 10 with
  | Response status response_headers response_data =>
      on_conn (fun c =>
        wfile_write response_data
          (end_headers
             (send_header (fst cors_headers) (snd cors_headers)
                (send_header (fst cors_methods) (snd cors_methods)
                   (send_header (fst cors_origin) (snd cors_origin)
                      (relay_headers response_headers
                         (send_response status c))))))) st
  | HTTPError code reason _ _ =>
      on_conn (fun c =>
        wfile_write (encode ("Proxy error: " +:+ reason))
          (end_headers
             (send_header (fst cors_origin) (snd cors_origin)
                (send_header "Content-Type" "text/plain"
                   (send_response code c))))) st
  | OtherError text =>
      on_conn (fun c =>
        wfile_write (encode ("Proxy error: " +:+ text))
          (end_headers
             (send_header (fst cors_origin) (snd cors_origin)
                (send_header "Content-Type" "text/plain"
                   (send_response 500 c))))) st
  end.

(** [int(self.headers.get('Content-Length', 0))]; [None] is [ValueError]. *)
Definition content_length (self : Handler) : option Z :=
  match msg_get (headers self) "Content-Length" with
  | Some v => int_of_str v
  | None => Some 0
  end.

(** [self.rfile.read(content_length) if content_length > 0 else None]. *)
Definition read_body (self : Handler) (content_length : Z) : option bytes :=
  if 0 <? content_length then Some (rfile_read self content_length) else None.

Definition do_GET (self : Handler) (st : State) : Outcome :=
  if String.eqb (path self) "/health" || startswith (path self) "/health"
  then
    let target_url := LOG_SERVER_URL +:+ path self in
    Returned (_proxy_request target_url "GET" None
                (dict_of_message (headers self)) st)
  else
    let target_url := ASSET_SERVER_URL +:+ path self in
    Returned (_proxy_request target_url "GET" None
                (dict_of_message (headers self)) st).

Definition do_POST (self : Handler) (st : State) : Outcome :=
  if String.eqb (path self) "/logs" || startswith (path self) "/logs"
  then
    match content_length self with
    | None => Raised ValueError st
    | Some n =>
        let body := read_body self n in
        let target_url := LOG_SERVER_URL +:+ path self in
        Returned (_proxy_request target_url "POST" body
                    (dict_of_message (headers self)) st)
    end
  else
    match content_length self with
    | None => Raised ValueError st
    | Some n =>
        let body := read_body self n in
        let target_url := ASSET_SERVER_URL +:+ path self in
        Returned (_proxy_request target_url "POST" body
                    (dict_of_message (headers self)) st)
    end.

Definition do_OPTIONS (self : Handler) (st : State) : Outcome :=
  Returned
    (on_conn (fun c =>
       end_headers
         (send_header (fst cors_headers) (snd cors_headers)
            (send_header (fst cors_methods) (snd cors_methods)
               (send_header (fst cors_origin) (snd cors_origin)
                  (send_response 200 c))))) st).

Definition do_PUT (self : Handler) (st : State) : Outcome :=
  match content_length self with
  | None => Raised ValueError st
  | Some n =>
      let body := read_body self n in
      let target_url := ASSET_SERVER_URL +:+ path self in
      Returned (_proxy_request target_url "PUT" body
                  (dict_of_message (headers self)) st)
  end.

Definition do_DELETE (self : Handler) (st : State) : Outcome :=
  let target_url := ASSET_SERVER_URL +:+ path self in
  Returned (_proxy_request target_url "DELETE" None
              (dict_of_message (headers self)) st).

Definition handle (m : Method) (self : Handler) : Outcome :=
  match m with
  | GET => do_GET self initial
  | POST => do_POST self initial
  | OPTIONS => do_OPTIONS self initial
  | PUT => do_PUT self initial
  | DELETE => do_DELETE self initial
  end.

End Proxy.


(** How many header lines carry [name], compared case-insensitively. *)
Definition count_named (name : string) (hs : Message) : nat :=
  length (List.filter (fun kv => String.eqb (lower (fst kv)) (lower name)) hs).

(** A complete response: status line written, header block ended. *)
Definition well_formed (c : Conn) : bool :=
  match status_line c with Some _ => headers_ended c | None => false end.



End ReverseProxy.

(* ===================================================================== *)
(** * server/log_server.py                                               *)
(* ===================================================================== *)

Module LogServer.
Import Py.

Definition LOG_PORT : Z := 8001.

(** Values [json.loads] returns and [json.dumps] accepts.  A [dict] keeps
    its keys distinct and in insertion order; a float is kept as its
    literal. *)
Inductive JSON :=
| JNull
| JBool (b : bool)
| JInt (z : Z)
| JFloat (literal : string)
| JStr (s : string)
| JList (l : list JSON)
| JDict (items : list (string * JSON)).

(** [d.get(key, default)] on a [dict]. *)
Fixpoint get (items : list (string * JSON)) (key : string) (default : JSON)
  : JSON :=
  match items with
  | [] => default
  | (k, v) :: rest => if String.eqb k key then v else get rest key default
  end.


(** [json.loads(text)]: a value, [json.JSONDecodeError], or another
    exception (such as [RecursionError] on deep nesting). *)
Inductive Loads :=
| Loaded (v : JSON)
| JSONDecodeError
| LoadsFailed.

(** The exceptions the handler can meet, each with the operand its message
    is built from. *)
Inductive Exn :=
| ValueError (literal : string)        (* int(...) *)
| BadGzipFile (body : bytes)           (* gzip.decompress *)
| UnicodeDecodeError (body : bytes)    (* body.decode('utf-8') *)
| LoadsError (text : string)           (* json.loads, not a decode error *)
| AttributeError (obj : JSON)          (* obj.get on a non-dict *)
| TypeError (obj : JSON)               (* iterating a non-iterable *)
| OSError (file : string)              (* open(..., 'a') *)
| UnicodeEncodeError (line : string).  (* f.write *)

(** A naive [datetime]. *)
Record DateTime := mkDateTime {
  year : nat; month : nat; day : nat;
  hour : nat; minute : nat; second : nat; microsecond : nat
}.

(** One reading of the wall clock: the local time, which [datetime.now()]
    returns, and the UTC time of the same instant. *)
Record Instant := mkInstant {
  local : DateTime;
  utc : DateTime
}.

(** [n] in decimal, zero-padded on the left to [width] digits. *)
Definition pad (width n : nat) : string :=
  let s := str_of_nat n in
  String.concat "" (repeat "0" (width - String.length s)) +:+ s.

(** [dt.strftime('%Y%m%d')], for years from 1000 on. *)
Definition strftime_Ymd (dt : DateTime) : string :=
  pad 4 (year dt) +:+ pad 2 (month dt) +:+ pad 2 (day dt).

(** [dt.isoformat()]. *)
Definition isoformat (dt : DateTime) : string :=
  pad 4 (year dt) +:+ "-" +:+ pad 2 (month dt) +:+ "-" +:+ pad 2 (day dt)
  +:+ "T" +:+ pad 2 (hour dt) +:+ ":" +:+ pad 2 (minute dt)
  +:+ ":" +:+ pad 2 (second dt)
  +:+ (if Nat.eqb (microsecond dt) 0 then "" else "." +:+ pad 6 (microsecond dt)).

(** The request as the handler object holds it. *)
Record Handler := mkHandler {
  path : string;
  headers : Message;
  rfile : bytes
}.

(** [self.rfile.read(n)]: at most [n] bytes, everything up to end of file
    when [n] is negative. *)
Definition rfile_read (self : Handler) (n : Z) : bytes :=
  if n <? 0 then rfile self else take (Z.to_nat n) (rfile self).

(** Effects of one request: the response, the file opened for appending
    (its name below [LOG_DIR]) and the lines written to it, each followed
    by a newline. *)
Record Effects := mkEffects {
  conn : Conn;
  log_file : option string;
  lines : list string
}.

Definition initial : Effects := mkEffects fresh_conn None [].

Definition on_conn (f : Conn -> Conn) (eff : Effects) : Effects :=
  mkEffects (f (conn eff)) (log_file eff) (lines eff).

(** What a [for] loop over a value visits; [None] when it is not iterable.
    A dict yields its keys, a str its characters. *)
Definition iter (v : JSON) : option (list JSON) :=
  match v with
  | JList l => Some l
  | JDict items => Some (map (fun kv => JStr (fst kv)) items)
  | JStr s => Some (map (fun c => JStr (String c EmptyString))
                        (list_ascii_of_string s))
  | _ => None
  end.

Section Sink.
Variables (version_string date_time_string : string).

(** The interpreter and its libraries.  Text decoded from UTF-8 can hold
    any code point; how such a [str] is laid out in a [string] is the
    business of these functions alone. *)
Variable gzip_decompress : bytes -> option bytes.
Variable decode_utf8 : bytes -> option string.
Variable json_loads : string -> Loads.
(** [json.dumps(v, ensure_ascii=b)]. *)
Variable json_dumps : bool -> JSON -> string.
(** [str(v)] of a value that is not a [str]. *)
Variable py_str : JSON -> string.
(** [str(e)] of a caught exception. *)
Variable str_exn : Exn -> string.
(** Whether [open(LOG_DIR / name, 'a', encoding='utf-8')] succeeds. *)
Variable can_open : string -> bool.
(** Whether the UTF-8 file accepts the text (no lone surrogate). *)
Variable can_write : string -> bool.
(** The successive readings of the clock during the request. *)
Variable clock : nat -> Instant.

Local Abbreviation send_response :=
  (Py.send_response version_string date_time_string).

Definition datetime_now (reading : nat) : DateTime := local (clock reading).

(** [f"{v}"]. *)
Definition fstr (v : JSON) : string :=
  match v with JStr s => s | _ => py_str v end.

(** Lines 76-82: the record persisted for one entry. *)
Definition log_record (device_id : JSON) (timestamp : string)
    (entry : list (string * JSON)) : JSON :=
  JDict [("timestamp", get entry "timestamp" (JStr timestamp));
         ("level", get entry "level" (JStr "DEBUG"));
         ("component", get entry "component" (JStr ""));
         ("message", get entry "message" (JStr ""));
         ("device_id", device_id)].

(** Lines 75-83: the loop body for each entry, until one raises. *)
Fixpoint write_entries (device_id : JSON) (timestamp : string)
    (entries : list JSON) (eff : Effects) : option Exn * Effects :=
  match entries with
  | [] => (None, eff)
  | log_entry :: rest =>
      match log_entry with
      | JDict entry =>
          let log_line :=
            json_dumps false (log_record device_id timestamp entry) in
          if can_write log_line
          then write_entries device_id timestamp rest
                 (mkEffects (conn eff) (log_file eff)
                            (lines eff ++ [log_line]))
          else (Some (UnicodeEncodeError log_line), eff)
      | _ => (Some (AttributeError log_entry), eff)
      end
  end.

Definition respond_400 (eff : Effects) : Effects :=
  on_conn (fun c => end_headers (send_response 400 c)) eff.

(** Lines 66-97, once [log_data] is parsed. *)
Definition process_logs (log_data : JSON) (eff : Effects)
  : option Exn * Effects :=
  match log_data with
  | JDict items =>
      let device_id := get items "device_id" (JStr "unknown") in
      let logs := get items "logs" (JList []) in
      let timestamp := isoformat (datetime_now 0) in
      let name :=
        fstr device_id +:+ "_" +:+ strftime_Ymd (datetime_now 1) +:+ ".log" in
      if can_open name then
        let eff := mkEffects (conn eff) (Some name) (lines eff) in
        match iter logs with
        | None => (Some (TypeError logs), eff)
        | Some entries =>
            match write_entries device_id timestamp entries eff with
            | (Some e, eff) => (Some e, eff)
            | (None, eff) =>
                (None,
                 on_conn (fun c =>
                   wfile_write
                     (encode (json_dumps true
                        (JDict [("status", JStr "ok");
                                ("received",
                                 JInt (Z.of_nat (length entries)))])))
                     (end_headers
                        (send_header "Access-Control-Allow-Origin" "*"
                           (send_header "Content-Type" "application/json"
                              (send_response 200 c))))) eff)
            end
        end
      else (Some (OSError name), eff)
  | _ => (Some (AttributeError log_data), eff)
  end.

(** Line 43: [int(self.headers.get('Content-Length', 0))]. *)
Definition read_content_length (self : Handler) : Z + Exn :=
  match msg_get (headers self) "Content-Length" with
  | Some v => match int_of_str v with
              | Some n => inl n
              | None => inr (ValueError v)
              end
  | None => inl 0
  end.

(** Lines 51-59: the body as read, decompressed when gzipped, and decoded. *)
Definition read_text (self : Handler) (content_length : Z)
    (content_encoding : string) : string + Exn :=
  let body := rfile_read self content_length in
  match (if String.eqb content_encoding "gzip"
         then gzip_decompress body else Some body) with
  | None => inr (BadGzipFile body)
  | Some body =>
      match decode_utf8 body with
      | None => inr (UnicodeDecodeError body)
      | Some text => inl text
      end
  end.

(** Lines 42-97: the body of the [try]. *)
Definition try_handle_logs (self : Handler) (eff : Effects)
  : option Exn * Effects :=
  match read_content_length self with
  | inr e => (Some e, eff)
  | inl content_length =>
      let content_encoding :=
        default "" (msg_get (headers self) "Content-Encoding") in
      if content_length =? 0 then (None, respond_400 eff)
      else
        match read_text self content_length content_encoding with
        | inr e => (Some e, eff)
        | inl text =>
            match json_loads text with
            | JSONDecodeError => (None, respond_400 eff)
            | LoadsFailed => (Some (LoadsError text), eff)
            | Loaded log_data => process_logs log_data eff
            end
        end
  end.

(** Lines 99-103: the [except Exception] clause. *)
Definition respond_500 (e : Exn) (eff : Effects) : Effects :=
  on_conn (fun c =>
    wfile_write
      (encode (json_dumps true
         (JDict [("status", JStr "error"); ("message", JStr (str_exn e))])))
      (end_headers (send_response 500 c))) eff.

Definition _handle_logs (self : Handler) (eff : Effects) : Effects :=
  match try_handle_logs self eff with
  | (None, eff) => eff
  | (Some e, eff) => respond_500 e eff
  end.

Definition do_POST (self : Handler) (eff : Effects) : Effects :=
  if String.eqb (path self) "/logs" || String.eqb (path self) "/"
  then _handle_logs self eff
  else on_conn (fun c => end_headers (send_response 404 c)) eff.

(** Lines 105-111. *)
Definition do_OPTIONS (self : Handler) (eff : Effects) : Effects :=
  on_conn (fun c =>
    end_headers
      (send_header "Access-Control-Allow-Headers" "Content-Type, Content-Encoding"
         (send_header "Access-Control-Allow-Methods" "POST, OPTIONS"
            (send_header "Access-Control-Allow-Origin" "*"
               (send_response 200 c))))) eff.

(** Lines 113-126: the health probe. *)
Definition do_GET (self : Handler) (eff : Effects) : Effects :=
  if String.eqb (path self) "/health" || String.eqb (path self) "/"
  then
    on_conn (fun c =>
      wfile_write
        (encode (json_dumps true
           (JDict [("status", JStr "ok");
                   ("service", JStr "vlinder-log-server");
                   ("port", JInt LOG_PORT)])))
        (end_headers
           (send_header "Content-Type" "application/json"
              (send_response 200 c)))) eff
  else on_conn (fun c => end_headers (send_response 404 c)) eff.

(** ** Outcomes, for stating what a request did *)

(** The answer to an empty or unparsable body. *)
Definition rejected : Effects :=
  mkEffects (mkConn (Some 400)
               [("Server", version_string); ("Date", date_time_string)]
               true [])
            None [].

(** The effects of a batch of [count] entries written as [written] to [file]. *)
Definition accepted (file : string) (written : list string) (count : nat)
  : Effects :=
  mkEffects
    (mkConn (Some 200)
       [("Server", version_string); ("Date", date_time_string);
        ("Content-Type", "application/json");
        ("Access-Control-Allow-Origin", "*")]
       true
       (encode (json_dumps true
          (JDict [("status", JStr "ok");
                  ("received", JInt (Z.of_nat count))]))))
    (Some file) written.

(** The answer to a path the sink does not serve. *)
Definition not_found : Effects :=
  mkEffects (mkConn (Some 404)
               [("Server", version_string); ("Date", date_time_string)]
               true [])
            None [].

(** The answer of the [except] clause to [e], after [file] was opened (if
    any) and [written] went to it. *)
Definition failed (e : Exn) (file : option string) (written : list string)
  : Effects :=
  mkEffects
    (mkConn (Some 500)
       [("Server", version_string); ("Date", date_time_string)]
       true
       (encode (json_dumps true
          (JDict [("status", JStr "error"); ("message", JStr (str_exn e))]))))
    file written.

End Sink.

(** Line 72: the name of the log file of [device] on the day of [dt]. *)
Definition log_file_name (device : string) (dt : DateTime) : string :=
  device +:+ "_" +:+ strftime_Ymd dt +:+ ".log".

(** The dates [datetime] can hold, as far as [%Y%m%d] is concerned. *)
Definition valid_date (dt : DateTime) : Prop :=
  1000 <= Z.of_nat (year dt) <= 9999
  /\ 1 <= Z.of_nat (month dt) <= 12
  /\ 1 <= Z.of_nat (day dt) <= 31.

End LogServer.

(* ===================================================================== *)
(** * server/serve_assets.py                                             *)
(* ===================================================================== *)

Module AssetServer.
Import Py.

Definition PORT : Z := 8002.

(** Lines 25-31: [CORSRequestHandler.end_headers], which every response of
    the handler goes through, those of [SimpleHTTPRequestHandler] included. *)
Definition end_headers (c : Conn) : Conn :=
  Py.end_headers
    (send_header "Cache-Control" "no-cache, no-store, must-revalidate"
       (send_header "Access-Control-Allow-Headers" "Content-Type"
          (send_header "Access-Control-Allow-Methods" "GET, OPTIONS"
             (send_header "Access-Control-Allow-Origin" "*" c)))).

Section Assets.
Variables (version_string date_time_string : string).

(** Lines 33-36. *)
Definition do_OPTIONS (c : Conn) : Conn :=
  end_headers (Py.send_response version_string date_time_string 200 c).

End Assets.

End AssetServer.

(* ===================================================================== *)
(** * Sample backends and requests                                       *)
(* ===================================================================== *)

Module Samples.
Import Py.

(** An asset or log backend that answers 200 and, like both backends of
    this repository, sends its own [Access-Control-Allow-Origin]. *)
Definition backend_ok : Request -> Z -> UrlResult :=
  fun _ _ =>
    Response 200
      [("Content-Type", "application/json");
       ("Access-Control-Allow-Origin", "*");
       ("Connection", "close")]
      (encode "{}").

(** A backend answering 404, which [urlopen] raises as [HTTPError]. *)
Definition backend_404 : Request -> Z -> UrlResult :=
  fun _ _ =>
    HTTPError 404 "Not Found" [("Content-Type", "text/html")]
      (encode "<h1>missing</h1>").


Definition server : string := "BaseHTTP/0.6 Python/3.11.4".
Definition date : string := "Sun, 03 Nov 2024 10:00:00 GMT".


Definition get_missing : ReverseProxy.Handler :=
  ReverseProxy.mkHandler "/missing.ht" [("Host", "localhost:8000")] [].

Definition get_health : ReverseProxy.Handler :=
  ReverseProxy.mkHandler "/health" [("Host", "localhost:8000")] [].

(** A POST with a body of three bytes and a forged [Host]. *)
Definition post_logs : ReverseProxy.Handler :=
  ReverseProxy.mkHandler "/logs"
    [("Host", "evil.example"); ("X-Trace", "abc"); ("Content-Length", "3");
     ("Connection", "keep-alive")]
    (encode "{ }").

(** A GET with a header that occurs twice. *)
Definition get_two_tags : ReverseProxy.Handler :=
  ReverseProxy.mkHandler "/ui.ht" [("X-Tag", "a"); ("X-Tag", "b")] [].

(** A POST whose [Content-Length] is not a number. *)
Definition post_bad_length : ReverseProxy.Handler :=
  ReverseProxy.mkHandler "/logs" [("Content-Length", "abc")] (encode "{ }").

(** *** The log sink *)

Import LogServer.

(** A double quote, and a quoted word. *)
Definition dq : string := String (ascii_of_nat 34) EmptyString.
Definition quoted (s : string) : string := dq +:+ s +:+ dq.

(** The batch of the end-to-end scenario and what [json.loads] makes of it. *)
Definition text_batch : string :=
  "{" +:+ quoted "device_id" +:+ ":" +:+ quoted "dev1" +:+ ","
  +:+ quoted "logs" +:+ ":[{" +:+ quoted "level" +:+ ":" +:+ quoted "INFO"
  +:+ "," +:+ quoted "component" +:+ ":" +:+ quoted "ui"
  +:+ "," +:+ quoted "message" +:+ ":" +:+ quoted "started" +:+ "}]}".

Definition value_batch : JSON :=
  JDict [("device_id", JStr "dev1");
         ("logs", JList [JDict [("level", JStr "INFO");
                                ("component", JStr "ui");
                                ("message", JStr "started")]])].

(** An object whose [logs] array holds a number. *)
Definition text_entry_number : string := "{" +:+ quoted "logs" +:+ ": [1]}".
Definition value_entry_number : JSON := JDict [("logs", JList [JInt 1])].

(** An object whose [logs] is a number. *)
Definition text_logs_number : string := "{" +:+ quoted "logs" +:+ ": 5}".
Definition value_logs_number : JSON := JDict [("logs", JInt 5)].

(** The empty object. *)
Definition text_empty_object : string := "{}".

(** [json.loads] on the texts above; every other text the samples send is
    no JSON. *)
Definition sample_loads (text : string) : Loads :=
  if String.eqb text text_batch then Loaded value_batch
  else if String.eqb text text_entry_number then Loaded value_entry_number
  else if String.eqb text text_logs_number then Loaded value_logs_number
  else if String.eqb text text_empty_object then Loaded (JDict [])
  else JSONDecodeError.

Definition str_of_Z (z : Z) : string :=
  if z <? 0 then "-" +:+ str_of_nat (Z.to_nat (- z)) else str_of_nat (Z.to_nat z).

(** [json.dumps] with the default separators, for values whose strings need
    no escaping; on those both settings of [ensure_ascii] agree. *)
Fixpoint dumps (v : JSON) : string :=
  match v with
  | JNull => "null"
  | JBool true => "true"
  | JBool false => "false"
  | JInt z => str_of_Z z
  | JFloat literal => literal
  | JStr s => quoted s
  | JList l => "[" +:+ String.concat ", " (map dumps l) +:+ "]"
  | JDict items =>
      "{" +:+ String.concat ", "
                (map (fun '(k, v) => quoted k +:+ ": " +:+ dumps v) items)
      +:+ "}"
  end.

Definition sample_dumps (ensure_ascii : bool) (v : JSON) : string := dumps v.

(** [str(v)] for [None], booleans and integers; other values are shown as
    [json.dumps] shows them. *)
Definition sample_str (v : JSON) : string :=
  match v with
  | JNull => "None"
  | JBool true => "True"
  | JBool false => "False"
  | _ => dumps v
  end.

Definition type_name (v : JSON) : string :=
  match v with
  | JNull => "NoneType" | JBool _ => "bool" | JInt _ => "int"
  | JFloat _ => "float" | JStr _ => "str" | JList _ => "list"
  | JDict _ => "dict"
  end.

Definition sample_str_exn (e : Exn) : string :=
  match e with
  | AttributeError obj =>
      "'" +:+ type_name obj +:+ "' object has no attribute 'get'"
  | TypeError obj => "'" +:+ type_name obj +:+ "' object is not iterable"
  | ValueError literal => "invalid literal for int() with base 10"
  | BadGzipFile _ => "Not a gzipped file"
  | UnicodeDecodeError _ => "'utf-8' codec can't decode bytes"
  | LoadsError _ => "maximum recursion depth exceeded"
  | OSError file => "[Errno 2] No such file or directory: " +:+ file
  | UnicodeEncodeError _ => "'utf-8' codec can't encode character"
  end.

(** [decode('utf-8')] on ASCII input, the only input the samples send. *)
Definition sample_decode (b : bytes) : option string :=
  if forallb (fun x => (Byte.to_N x <? 128)%N) b
  then Some (string_of_list_byte b) else None.

(** The samples send no gzipped body. *)
Definition sample_gunzip (b : bytes) : option bytes := None.

(** A log directory without subdirectories: a name with a slash cannot be
    opened. *)
Definition sample_can_open (name : string) : bool :=
  negb (existsb (Ascii.eqb "/") (list_ascii_of_string name)).

Definition sample_can_write (line : string) : bool := true.

(** Half past midnight on 4 November 2024 at UTC+2. *)
Definition sample_clock (reading : nat) : Instant :=
  mkInstant (mkDateTime 2024 11 4 0 30 0 0) (mkDateTime 2024 11 3 22 30 0 0).

Definition sink (self : LogServer.Handler) : Effects :=
  LogServer.do_POST server date sample_gunzip sample_decode sample_loads
    sample_dumps sample_str sample_str_exn sample_can_open sample_can_write
    sample_clock self LogServer.initial.

(** POST /logs with [text] as body and its length as Content-Length. *)
Definition sink_post (text : string) : LogServer.Handler :=
  LogServer.mkHandler "/logs"
    [("Content-Type", "application/json");
     ("Content-Length", str_of_nat (length (encode text)))]
    (encode text).

(** A batch whose second entry is a number, and what [json.loads] makes of
    it. *)
Definition text_mixed : string := "{" +:+ quoted "logs" +:+ ": [{}, 1]}".
Definition value_mixed : JSON := JDict [("logs", JList [JDict []; JInt 1])].

Definition sample_loads_mixed (text : string) : Loads :=
  if String.eqb text text_mixed then Loaded value_mixed else sample_loads text.

Definition sink_mixed (self : LogServer.Handler) : Effects :=
  LogServer.do_POST server date sample_gunzip sample_decode sample_loads_mixed
    sample_dumps sample_str sample_str_exn sample_can_open sample_can_write
    sample_clock self LogServer.initial.

(** A POST to the sink whose Content-Length is not a number. *)
Definition sink_bad_length : LogServer.Handler :=
  LogServer.mkHandler "/logs" [("Content-Length", "abc")] (encode "{}").

(** A POST to the sink whose body is the single byte FF, which is not
    UTF-8. *)
Definition sink_not_utf8 : LogServer.Handler :=
  LogServer.mkHandler "/logs" [("Content-Length", "1")] [Byte.xff].

(** The answer of the asset server to a preflight, as header lines. *)
Definition asset_preflight : Conn :=
  AssetServer.do_OPTIONS server date fresh_conn.

(** An asset backend that answers every request as it answers a preflight. *)
Definition backend_assets : Request -> Z -> UrlResult :=
  fun _ _ => Response 200 (sent_headers asset_preflight) [].

(** The sink's acknowledgement of one entry, and a log backend that sends
    it. *)
Definition sink_ack : Conn :=
  LogServer.conn
    (LogServer.accepted server date sample_dumps "dev1_20241104.log" [] 1).

Definition backend_sink_ack : Request -> Z -> UrlResult :=
  fun _ _ => Response 200 (sent_headers sink_ack) (wfile sink_ack).


(** The request the proxy builds for [post_logs]. *)
Definition post_logs_request : Request :=
  ReverseProxy.build_request "http://localhost:8001/logs" "POST"
    (Some (encode "{ }"))
    (dict_of_message (ReverseProxy.headers post_logs)).

End Samples.

(* ===================================================================== *)
(** * Facts about the runtime pieces                                     *)
(* ===================================================================== *)

Module PyFacts.
Import Py.

Lemma lower_upper_char (c : ascii) : lower_char (upper_char c) = lower_char c.
Proof. destruct c as [[] [] [] [] [] [] [] []]; reflexivity. Qed.

Lemma upper_lower_char (c : ascii) : upper_char (lower_char c) = upper_char c.
Proof. destruct c as [[] [] [] [] [] [] [] []]; reflexivity. Qed.

Lemma lower_char_idem (c : ascii) : lower_char (lower_char c) = lower_char c.
Proof. destruct c as [[] [] [] [] [] [] [] []]; reflexivity. Qed.

Lemma lower_idem (s : string) : lower (lower s) = lower s.
Proof. induction s as [|c s IH]; simpl; [done|]. by rewrite lower_char_idem, IH. Qed.

Lemma lower_capitalize (s : string) : lower (capitalize s) = lower s.
Proof. destruct s as [|c s]; simpl; [done|]. by rewrite lower_upper_char, lower_idem. Qed.

Lemma capitalize_lower (s : string) : capitalize (lower s) = capitalize s.
Proof. destruct s as [|c s]; simpl; [done|]. by rewrite upper_lower_char, lower_idem. Qed.

(** Two names get the same key in a [Request] exactly when they are equal
    up to case. *)
Lemma capitalize_eq_iff (a b : string) :
  capitalize a = capitalize b <-> lower a = lower b.
Proof.
  split; intros H.
  - by rewrite <- (lower_capitalize a), <- (lower_capitalize b), H.
  - by rewrite <- (capitalize_lower a), <- (capitalize_lower b), H.
Qed.

Lemma msg_get_lower (msg : Message) (a b : string) :
  lower a = lower b -> msg_get msg a = msg_get msg b.
Proof.
  intros H. induction msg as [|[k v] rest IH]; simpl; [done|].
  by rewrite H, IH.
Qed.

(** A header found by [msg.get] is a line of the message. *)
Lemma msg_get_Some (msg : Message) (name v : string) :
  msg_get msg name = Some v ->
  exists k, (k, v) ∈ msg /\ lower k = lower name.
Proof.
  induction msg as [|[k w] rest IH]; simpl; [done|].
  destruct (String.eqb (lower k) (lower name)) eqn:E.
  - intros [= ->]. exists k. split; [left|]. by apply String.eqb_eq.
  - intros H. destruct (IH H) as (k' & Hin & Hl). exists k'. split; [by right|done].
Qed.

Lemma msg_get_key (msg : Message) (k v : string) :
  (k, v) ∈ msg -> is_Some (msg_get msg k).
Proof.
  induction msg as [|[k' w] rest IH]; [by intros ?%elem_of_nil|].
  intros [[= <- <-]|Hin]%elem_of_cons; simpl.
  - by rewrite String.eqb_refl.
  - destruct (String.eqb _ _); [done|by apply IH].
Qed.

Lemma dict_set_elem (d : Dict) (k v k' v' : string) :
  (k', v') ∈ dict_set d k v -> (k', v') ∈ d \/ (k' = k /\ v' = v).
Proof.
  induction d as [|[k0 v0] rest IH]; simpl.
  - intros [[= -> ->]|[]%elem_of_nil]%elem_of_cons. by right.
  - destruct (String.eqb k0 k) eqn:E.
    + apply String.eqb_eq in E as ->.
      intros [[= -> ->]|Hin]%elem_of_cons; [by right|left; by right].
    + intros [[= -> ->]|Hin]%elem_of_cons; [left; by left|].
      destruct (IH Hin) as [?|?]; [left; by right|by right].
Qed.

Lemma dict_set_key (d : Dict) (k v : string) : exists v', (k, v') ∈ dict_set d k v.
Proof.
  induction d as [|[k0 v0] rest IH]; simpl.
  - exists v. by left.
  - destruct (String.eqb k0 k) eqn:E.
    + apply String.eqb_eq in E as ->. exists v. by left.
    + destruct IH as [v' ?]. exists v'. by right.
Qed.

Lemma dict_set_keeps_key (d : Dict) (k v k' v' : string) :
  (k', v') ∈ d -> exists w, (k', w) ∈ dict_set d k v.
Proof.
  induction d as [|[k0 v0] rest IH]; [by intros ?%elem_of_nil|]. simpl.
  intros [[= <- <-]|Hin]%elem_of_cons.
  - destruct (String.eqb k' k); eexists; by left.
  - destruct (String.eqb k0 k).
    + exists v'. by right.
    + destruct (IH Hin) as [w ?]. exists w. by right.
Qed.

Lemma dict_fold_entries (msg : Message) (ks : list string) (d : Dict) :
  (forall k v, (k, v) ∈ d -> msg_get msg k = Some v) ->
  forall k v,
    (k, v) ∈ fold_left
               (fun d k => match msg_get msg k with
                           | Some v => dict_set d k v
                           | None => d
                           end) ks d ->
    msg_get msg k = Some v.
Proof.
  revert d. induction ks as [|k0 ks IH]; intros d Hd k v; simpl; [by apply Hd|].
  apply IH. intros k' v' Hin.
  destruct (msg_get msg k0) as [v0|] eqn:E; [|by apply Hd].
  destruct (dict_set_elem _ _ _ _ _ Hin) as [?|[-> ->]]; [by apply Hd|done].
Qed.

Lemma dict_fold_keys (msg : Message) (ks : list string) (d : Dict) (k : string) :
  (k ∈ ks /\ is_Some (msg_get msg k)) \/ (exists v, (k, v) ∈ d) ->
  exists v,
    (k, v) ∈ fold_left
               (fun d k => match msg_get msg k with
                           | Some v => dict_set d k v
                           | None => d
                           end) ks d.
Proof.
  revert d. induction ks as [|k0 ks IH]; intros d; simpl.
  - intros [[[]%elem_of_nil _]|H]; done.
  - intros [[[->|Hin]%elem_of_cons Hs]|[v Hv]]; apply IH.
    + right. destruct Hs as [v0 ->]. apply dict_set_key.
    + left. done.
    + right. destruct (msg_get msg k0); [by eapply dict_set_keeps_key|by exists v].
Qed.

(** Every entry of [dict(msg)] holds what [msg[k]] returns. *)
Lemma dict_of_message_entries (msg : Message) (k v : string) :
  (k, v) ∈ dict_of_message msg -> msg_get msg k = Some v.
Proof. apply dict_fold_entries. by intros ?? ?%elem_of_nil. Qed.

(** Whatever [msg.get] finds is found in [dict(msg)] too, under the name of
    the header line it came from. *)
Lemma dict_of_message_covers (msg : Message) (name v : string) :
  msg_get msg name = Some v ->
  exists k, (k, v) ∈ dict_of_message msg /\ lower k = lower name.
Proof.
  intros H. destruct (msg_get_Some _ _ _ H) as (k & Hin & Hl).
  destruct (dict_fold_keys msg (map fst msg) [] k) as [w Hw].
  { left. split; [|by eapply msg_get_key].
    apply list_elem_of_fmap. by exists (k, v). }
  exists k. split; [|done].
  pose proof (dict_of_message_entries _ _ _ Hw) as E.
  rewrite (msg_get_lower _ _ _ Hl), H in E. by injection E as ->.
Qed.

End PyFacts.

(* ===================================================================== *)
(** * The reverse proxy: request building                                *)
(* ===================================================================== *)

Module ProxyFacts.
Import Py PyFacts ReverseProxy.

Lemma build_request_eq (url m : string) (body : option bytes) (d : Dict) :
  build_request url m body d =
  let req := fold_left copy_step d (Request_new url body m) in
  if truthy body
  then add_header "Content-Length" (str_of_nat (body_len body)) req
  else req.
Proof. unfold build_request. by destruct d. Qed.

Lemma copy_fold_data (d : Dict) (req : Request) :
  data (fold_left copy_step d req) = data req
  /\ full_url (fold_left copy_step d req) = full_url req
  /\ method (fold_left copy_step d req) = method req.
Proof.
  revert req. induction d as [|[k v] d IH]; intros req; simpl; [done|].
  destruct (is_copied k); simpl; destruct (IH (add_header k v req)) as (?&?&?);
    destruct (IH req) as (?&?&?); done.
Qed.

Lemma build_request_fields (url m : string) (body : option bytes) (d : Dict) :
  data (build_request url m body d) = body
  /\ full_url (build_request url m body d) = url
  /\ method (build_request url m body d) = m.
Proof.
  rewrite build_request_eq. simpl.
  destruct (copy_fold_data d (Request_new url body m)) as (?&?&?).
  by destruct (truthy body).
Qed.

(** A key no copied header maps to is left as it was. *)
Lemma copy_fold_keep (d : Dict) (req : Request) (K : string) :
  (forall k v, (k, v) ∈ d -> is_copied k = true -> capitalize k <> K) ->
  Py.headers (fold_left copy_step d req) !! K = Py.headers req !! K.
Proof.
  revert req. induction d as [|[k v] d IH]; intros req Hd; simpl; [done|].
  rewrite IH by (intros k' v' Hin; apply (Hd k' v'); by right).
  destruct (is_copied k) eqn:E; [|done]. simpl.
  apply lookup_insert_ne. apply (Hd k v); [by left|done].
Qed.

(** When all copied headers that map to [K] carry [v], so does [K]. *)
Lemma copy_fold_agree (d : Dict) (req : Request) (K v : string) :
  (forall k v', (k, v') ∈ d -> is_copied k = true -> capitalize k = K -> v' = v) ->
  Py.headers req !! K = Some v
  \/ (exists k, (k, v) ∈ d /\ is_copied k = true /\ capitalize k = K) ->
  Py.headers (fold_left copy_step d req) !! K = Some v.
Proof.
  revert req. induction d as [|[k0 v0] d IH]; intros req Hd Hex; simpl.
  - destruct Hex as [?|(k & []%elem_of_nil & _)]; done.
  - apply IH; [intros k' v' Hin; apply (Hd k' v'); by right|].
    destruct Hex as [Hreq|(k & [[= -> ->]|Hin]%elem_of_cons & Hc & HK)].
    + left. destruct (is_copied k0) eqn:E; [|done]. simpl.
      destruct (decide (capitalize k0 = K)) as [HK|HK].
      * rewrite HK, lookup_insert_eq. f_equal. apply (Hd k0 v0); [by left|done..].
      * by rewrite lookup_insert_ne.
    + left. rewrite Hc. simpl. by rewrite HK, lookup_insert_eq.
    + right. by exists k.
Qed.

Lemma is_copied_lower (a b : string) :
  lower a = lower b -> is_copied a = is_copied b.
Proof. unfold is_copied. by intros ->. Qed.

Lemma proxy_calls vs dt urlopen url m body d st :
  calls (_proxy_request vs dt urlopen url m body d st)
  = (calls st ++ [(build_request url m body d, 10)])%list.
Proof. unfold _proxy_request. by destruct (urlopen _ _). Qed.

(** Every backend call of a request carries the filtered copy of the
    request's own headers and the ten-second timeout. *)
Lemma handle_calls vs dt urlopen m self req t :
  (req, t) ∈ calls (state_of (handle vs dt urlopen m self)) ->
  t = 10 /\ exists url meth body,
    req = build_request url meth body (dict_of_message (headers self)).
Proof.
  assert (forall url meth body,
    (req, t) ∈ calls (_proxy_request vs dt urlopen url meth body
                        (dict_of_message (headers self)) initial) ->
    t = 10 /\ exists url meth body,
      req = build_request url meth body (dict_of_message (headers self)))
    as Hp.
  { intros url meth body. rewrite proxy_calls. simpl.
    intros [[= -> ->]|[]%elem_of_nil]%elem_of_cons. split; [done|].
    by exists url, meth, body. }
  destruct m; unfold handle, do_GET, do_POST, do_OPTIONS, do_PUT, do_DELETE;
    repeat match goal with
           | |- context [if ?b then _ else _] => destruct b
           | |- context [match content_length self with _ => _ end] =>
               destruct (content_length self)
           end;
    cbn [state_of calls initial on_conn]; try apply Hp; by intros ?%elem_of_nil.
Qed.

End ProxyFacts.

(* ===================================================================== *)
(** * The reverse proxy: routing, relaying, errors                       *)
(* ===================================================================== *)

Module ProxySpec.
Import Py PyFacts ReverseProxy ProxyFacts Samples.



Lemma eq_or_startswith (p pre : string) :
  (String.eqb p pre || startswith p pre) = startswith p pre.
Proof.
  destruct (String.eqb_spec p pre) as [->|]; [|done]. simpl. symmetry.
  unfold startswith. induction pre as [|c pre IH]; simpl; [done|].
  destruct (ascii_dec c c); [apply IH|done].
Qed.

Lemma relay_headers_eq (hs : Message) (c : Conn) :
  relay_headers hs c =
  mkConn (status_line c)
         (sent_headers c ++ List.filter (fun kv => is_relayed (fst kv)) hs)
         (headers_ended c) (wfile c).
Proof.
  revert c. induction hs as [|[k v] hs IH]; intros c; simpl.
  - rewrite app_nil_r. by destruct c.
  - unfold relay_headers in *. simpl. rewrite IH.
    destruct (is_relayed k); simpl; [|done]. by rewrite <- app_assoc.
Qed.

Lemma count_named_app (name : string) (a b : Message) :
  count_named name (a ++ b) = (count_named name a + count_named name b)%nat.
Proof. unfold count_named. by rewrite List.filter_app, length_app. Qed.

(** Dropping the [Connection] lines loses no line of another name. *)
Lemma count_named_relayed (name : string) (hs : Message) :
  lower name <> "connection" ->
  count_named name (List.filter (fun kv => is_relayed (fst kv)) hs)
  = count_named name hs.
Proof.
  intros Hn. unfold count_named.
  induction hs as [|[k v] hs IH]; simpl; [done|].
  unfold is_relayed at 1. simpl.
  destruct (String.eqb_spec (lower k) "connection") as [E|E]; simpl.
  - destruct (String.eqb_spec (lower k) (lower name)) as [E'|E']; [congruence|done].
  - destruct (String.eqb (lower k) (lower name)); simpl; by rewrite IH.
Qed.

(** ** Routing *)




(** ** CORS headers *)

(** C2, as amended.  Every response of [_proxy_request] carries
    Access-Control-Allow-Origin: *; the success path carries the other two
    CORS headers as well, the two error paths carry neither of them. *)
Theorem cors_by_path vs dt urlopen url m body (d : Dict) :
  let hs := sent_headers (conn (_proxy_request vs dt urlopen url m body d initial)) in
  cors_origin ∈ hs
  /\ match urlopen (build_request url m body d) 10 with
     | Response _ _ _ => cors_methods ∈ hs /\ cors_headers ∈ hs
     | _ => count_named (fst cors_methods) hs = 0%nat
            /\ count_named (fst cors_headers) hs = 0%nat
     end.
Proof.
  cbv zeta. unfold _proxy_request.
  destruct (urlopen (build_request url m body d) 10) as [status hs data| |];
    cbn [on_conn conn initial].
  - rewrite relay_headers_eq. unfold send_header, end_headers, wfile_write.
    cbn [sent_headers status_line headers_ended wfile Py.send_response fst snd].
    repeat split; repeat first [rewrite elem_of_app | rewrite elem_of_cons];
      unfold cors_origin, cors_methods, cors_headers; tauto.
  - split; [|done]. cbn. rewrite !elem_of_cons. unfold cors_origin. tauto.
  - split; [|done]. cbn. rewrite !elem_of_cons. unfold cors_origin. tauto.
Qed.

(** C2 as stated fails: the answer to a backend 404 has no
    Access-Control-Allow-Methods header. *)
Lemma error_response_lacks_cors_methods :
  count_named "Access-Control-Allow-Methods"
    (sent_headers (conn (state_of (handle server date backend_404 GET get_missing))))
  = 0%nat.
Proof. reflexivity. Qed.

(** ** Header filtering towards the backend *)

Lemma not_copied_key (d : Dict) (K : string) :
  is_copied K = false ->
  forall k v, (k, v) ∈ d -> is_copied k = true -> capitalize k <> K.
Proof.
  intros HK k v _ Hk E.
  rewrite <- (is_copied_lower (capitalize k) k), E, HK in Hk
    by apply lower_capitalize.
  done.
Qed.

(** C3, as amended.  In every request the proxy sends to a backend: no
    header named Host or Connection is present; a Content-Length header is
    present only when a non-empty body is forwarded and then holds the
    length of that body; and every other header name of the inbound request
    is present, capitalised, with the value [self.headers] gives for that
    name, which is the value of the first line of that name. *)
Theorem forwarded_headers_filtered vs dt urlopen m (self : Handler)
    (req : Request) (t : Z) :
  (req, t) ∈ calls (state_of (handle vs dt urlopen m self)) ->
  (forall K, lower K = "host" \/ lower K = "connection" ->
             Py.headers req !! K = None)
  /\ (forall K, lower K = "content-length" ->
                Py.headers req !! K =
                if truthy (data req) && String.eqb K "Content-length"
                then Some (str_of_nat (body_len (data req))) else None)
  /\ (forall name v, msg_get (headers self) name = Some v ->
                     is_copied name = true ->
                     Py.headers req !! capitalize name = Some v).
Proof.
  intros Hin.
  destruct (handle_calls _ _ _ _ _ _ _ Hin) as (_ & url & meth & body & ->).
  set (d := dict_of_message (headers self)).
  destruct (build_request_fields url meth body d) as (-> & _).
  rewrite build_request_eq. cbv zeta.
  assert (forall K, is_copied K = false ->
            Py.headers (fold_left copy_step d (Request_new url body meth)) !! K
            = None) as Hnone.
  { intros K HK. rewrite copy_fold_keep by by apply not_copied_key. done. }
  assert (forall K c, lower K = c -> is_copied c = false -> is_copied K = false)
    as Hlow.
  { intros K c <- Hc. rewrite <- Hc. apply is_copied_lower. by rewrite lower_idem. }
  split; [|split].
  - intros K HK.
    assert (is_copied K = false) as HK' by (destruct HK; by eapply Hlow).
    assert (K <> "Content-length") as Hne by (destruct HK as [HK|HK]; by intros ->).
    destruct (truthy body); cbn; [rewrite lookup_insert_ne by done|];
      by apply Hnone.
  - intros K HK.
    assert (is_copied K = false) as HK' by by eapply Hlow.
    destruct (truthy body); cbn [andb]; [|by apply Hnone].
    cbn. destruct (String.eqb_spec K "Content-length") as [->|Hne].
    + by rewrite lookup_insert_eq.
    + rewrite lookup_insert_ne by done. by apply Hnone.
  - intros name v Hget Hc.
    assert (Py.headers (fold_left copy_step d (Request_new url body meth))
              !! capitalize name = Some v) as Hv.
    { apply copy_fold_agree.
      - intros k v' Hk _ E. apply capitalize_eq_iff in E.
        apply dict_of_message_entries in Hk.
        rewrite (msg_get_lower _ _ _ E), Hget in Hk. by injection Hk.
      - right. destruct (dict_of_message_covers _ _ _ Hget) as (k & Hk & E).
        exists k. split; [done|]. split.
        + by rewrite (is_copied_lower _ _ E).
        + by apply capitalize_eq_iff. }
    assert (capitalize name <> "Content-length") as Hne.
    { intros E. change "Content-length" with (capitalize "content-length") in E.
      apply capitalize_eq_iff in E.
      by rewrite (is_copied_lower _ _ E) in Hc. }
    destruct (truthy body); cbn; [rewrite lookup_insert_ne by done|]; done.
Qed.

Lemma forwarded_headers_filtered_witness :
  (post_logs_request, 10)
    ∈ calls (state_of (handle server date backend_ok POST post_logs))
  /\ Py.headers post_logs_request !! "Host" = None
  /\ Py.headers post_logs_request !! "Content-length" = Some "3"
  /\ Py.headers post_logs_request !! "X-trace" = Some "abc".
Proof.
  assert ((post_logs_request, 10)
            ∈ calls (state_of (handle server date backend_ok POST post_logs)))
    as Hin by (by left).
  destruct (forwarded_headers_filtered server date backend_ok POST post_logs
              post_logs_request 10 Hin) as (Hhost & Hlen & Hcopy).
  split; [exact Hin|]. split; [|split].
  - apply Hhost. by left.
  - apply (Hlen "Content-length"). reflexivity.
  - apply (Hcopy "X-Trace" "abc"); reflexivity.
Defined.

(** C3 as stated fails: of two inbound lines with the same name only the
    first reaches the backend. *)
Lemma repeated_header_forwarded_once :
  calls (state_of (handle server date backend_ok GET get_two_tags))
  = [(mkRequest "http://localhost:8002/ui.ht" None "GET" {[ "X-tag" := "a" ]},
      10)].
Proof. reflexivity. Qed.

(** ** Relaying a backend response *)

(** C4, as amended.  On a successful backend response the relayed response
    has the backend's status code, the Server and Date lines of
    [send_response], every backend header line except those named
    Connection, then the three CORS headers, and the backend's body.  The
    CORS headers are appended: a backend line of the same name is relayed
    too, so each CORS name occurs once more than in the backend response. *)
Theorem relay_appends_cors vs dt urlopen url m body (d : Dict)
    (status : Z) (hs : Message) (response_data : bytes) :
  urlopen (build_request url m body d) 10 = Response status hs response_data ->
  let c := conn (_proxy_request vs dt urlopen url m body d initial) in
  status_line c = Some status
  /\ sent_headers c =
       ([("Server", vs); ("Date", dt)]
        ++ List.filter (fun kv => is_relayed (fst kv)) hs
        ++ [cors_origin; cors_methods; cors_headers])%list
  /\ headers_ended c = true
  /\ wfile c = response_data
  /\ (forall name,
        name ∈ [fst cors_origin; fst cors_methods; fst cors_headers] ->
        count_named name (sent_headers c) = S (count_named name hs)).
Proof.
  intros H. cbv zeta. unfold _proxy_request. rewrite H.
  cbn [on_conn conn initial]. rewrite relay_headers_eq.
  unfold Py.send_response, send_header, end_headers, wfile_write.
  cbn [sent_headers status_line headers_ended wfile fresh_conn fst snd].
  split; [done|]. split; [by rewrite <- !app_assoc|].
  split; [done|]. split; [done|].
  intros name Hname. rewrite !count_named_app.
  assert (lower name <> "connection") as Hnc.
  { rewrite !elem_of_cons in Hname.
    destruct Hname as [->|[->|[->|[]%elem_of_nil]]]; done. }
  rewrite (count_named_relayed _ _ Hnc).
  generalize (count_named name hs). intros n.
  rewrite !elem_of_cons in Hname.
  destruct Hname as [->|[->|[->|[]%elem_of_nil]]];
    repeat match goal with
           | |- context [count_named ?a ?l] =>
               let k := eval vm_compute in (count_named a l) in
               change (count_named a l) with k
           end;
    lia.
Qed.

Lemma relay_appends_cors_witness :
  backend_ok (build_request "http://localhost:8001/health" "GET" None []) 10
  = Response 200
      [("Content-Type", "application/json");
       ("Access-Control-Allow-Origin", "*");
       ("Connection", "close")]
      (encode "{}")
  /\ sent_headers
       (conn (_proxy_request server date backend_ok
                "http://localhost:8001/health" "GET" None [] initial))
     = [("Server", server); ("Date", date);
        ("Content-Type", "application/json");
        ("Access-Control-Allow-Origin", "*");
        cors_origin; cors_methods; cors_headers].
Proof.
  split; [reflexivity|].
  apply (relay_appends_cors server date backend_ok
           "http://localhost:8001/health" "GET" None [] 200 _ _ eq_refl).
Defined.

(** C4 as stated fails: when the backend sends its own
    Access-Control-Allow-Origin, the relayed response holds two. *)
Lemma relayed_cors_origin_twice :
  count_named "Access-Control-Allow-Origin"
    (sent_headers (conn (state_of (handle server date backend_ok GET get_health))))
  = 2%nat.
Proof. reflexivity. Qed.

(** ** Preflight *)

(** C5.  OPTIONS on any path is answered with status 200, the three CORS
    headers after the Server and Date lines, an ended header block and no
    body, and no backend call is issued. *)
Theorem options_answered_locally vs dt urlopen (self : Handler) :
  handle vs dt urlopen OPTIONS self =
  Returned
    (mkState
       (mkConn (Some 200)
               [("Server", vs); ("Date", dt);
                ("Access-Control-Allow-Origin", "*");
                ("Access-Control-Allow-Methods", "GET, POST, OPTIONS");
                ("Access-Control-Allow-Headers", "Content-Type, Content-Encoding")]
               true [])
       []).
Proof. reflexivity. Qed.

(** ** Errors *)

(** C6.  When [urlopen] raises [HTTPError], the proxy answers with the
    error's status code, Content-Type: text/plain, the CORS origin header
    and a body of its own made from the reason phrase; the error's body
    [fp] goes nowhere. *)
Theorem http_error_relayed vs dt urlopen url m body (d : Dict)
    (code : Z) (reason : string) (hs : Message) (fp : bytes) :
  urlopen (build_request url m body d) 10 = HTTPError code reason hs fp ->
  conn (_proxy_request vs dt urlopen url m body d initial) =
  mkConn (Some code)
         [("Server", vs); ("Date", dt); ("Content-Type", "text/plain");
          ("Access-Control-Allow-Origin", "*")]
         true
         (encode ("Proxy error: " +:+ reason)).
Proof. intros H. unfold _proxy_request. by rewrite H. Qed.

Lemma http_error_relayed_witness :
  backend_404 (build_request "http://localhost:8002/missing.ht" "GET" None []) 10
  = HTTPError 404 "Not Found" [("Content-Type", "text/html")]
      (encode "<h1>missing</h1>")
  /\ conn (_proxy_request server date backend_404
             "http://localhost:8002/missing.ht" "GET" None [] initial)
     = mkConn (Some 404)
         [("Server", server); ("Date", date); ("Content-Type", "text/plain");
          ("Access-Control-Allow-Origin", "*")]
         true
         (encode "Proxy error: Not Found").
Proof.
  split; [reflexivity|].
  apply (http_error_relayed server date backend_404
           "http://localhost:8002/missing.ht" "GET" None [] 404 "Not Found"
           _ _ eq_refl).
Defined.



(** C8, at the failing input.  A POST whose Content-Length is not a number
    makes [do_POST] raise [ValueError] before anything is written: the
    client gets no status line, and no backend is called. *)
Theorem bad_content_length_escapes :
  handle server date backend_ok POST post_bad_length = Raised ValueError initial
  /\ well_formed (conn initial) = false.
Proof. split; reflexivity. Qed.

(** The same happens for every POST and PUT whose Content-Length [int]
    rejects. *)
Lemma unparsable_length_raises vs dt urlopen (self : Handler) :
  content_length self = None ->
  handle vs dt urlopen POST self = Raised ValueError initial
  /\ handle vs dt urlopen PUT self = Raised ValueError initial.
Proof.
  intros H. unfold handle, do_POST, do_PUT. rewrite H.
  by destruct (_ || _).
Qed.

(** Whenever a handler returns, the response is complete. *)
Lemma returned_is_well_formed vs dt urlopen m (self : Handler) (st : State) :
  handle vs dt urlopen m self = Returned st -> well_formed (conn st) = true.
Proof.
  assert (forall url meth body d,
    well_formed (conn (_proxy_request vs dt urlopen url meth body d initial))
    = true) as Hp.
  { intros. unfold _proxy_request. destruct (urlopen _ _); cbn [on_conn conn];
      [rewrite relay_headers_eq|..]; reflexivity. }
  destruct m; unfold handle, do_GET, do_POST, do_OPTIONS, do_PUT, do_DELETE;
    repeat match goal with
           | |- context [if ?b then _ else _] => destruct b
           | |- context [match content_length self with _ => _ end] =>
               destruct (content_length self)
           end;
    intros [= <-]; first [apply Hp | reflexivity].
Qed.

End ProxySpec.

(* ===================================================================== *)
(** * The log sink                                                       *)
(* ===================================================================== *)

Module SinkSpec.
Import Py LogServer Samples.


Section Sink.
Variables (version_string date_time_string : string).
Variable gzip_decompress : bytes -> option bytes.
Variable decode_utf8 : bytes -> option string.
Variable json_loads : string -> Loads.
Variable json_dumps : bool -> JSON -> string.
Variable py_str : JSON -> string.
Variable str_exn : Exn -> string.
Variable can_open : string -> bool.
Variable can_write : string -> bool.
Variable clock : nat -> Instant.

Local Abbreviation POST :=
  (do_POST version_string date_time_string gzip_decompress decode_utf8
     json_loads json_dumps py_str str_exn can_open can_write clock).
Local Abbreviation text_of self n :=
  (read_text gzip_decompress decode_utf8 self n
     (default "" (msg_get (headers self) "Content-Encoding"))).
Local Abbreviation line_of device_id :=
  (fun r => json_dumps false
              (log_record device_id (isoformat (local (clock 0))) r)).
Local Abbreviation file_of device_id :=
  (fstr py_str device_id +:+ "_" +:+ strftime_Ymd (local (clock 1)) +:+ ".log").

Local Abbreviation rejected := (LogServer.rejected version_string date_time_string).
Local Abbreviation accepted :=
  (LogServer.accepted version_string date_time_string json_dumps).


Lemma posted_to_logs (self : Handler) :
  path self = "/logs" \/ path self = "/" ->
  (String.eqb (path self) "/logs" || String.eqb (path self) "/") = true.
Proof. by intros [-> | ->]. Qed.




End Sink.





End SinkSpec.

(* ===================================================================== *)
(** * More on the runtime pieces: decimal numbers                        *)
(* ===================================================================== *)

Module PyMore.
Import Py.

Lemma is_digit_not_space (c : ascii) : is_digit c = true -> is_space c = false.
Proof. destruct c as [[] [] [] [] [] [] [] []]; (discriminate || reflexivity). Qed.

Lemma all_digits_cons (c : ascii) (s : string) :
  all_digits (String c s) = is_digit c && all_digits s.
Proof. reflexivity. Qed.

Lemma all_digits_app (a b : string) :
  all_digits (a +:+ b) = all_digits a && all_digits b.
Proof.
  induction a as [|c a IH]; [done|].
  change (all_digits (String c a +:+ b))
    with (is_digit c && all_digits (a +:+ b)).
  by rewrite IH, all_digits_cons, andb_assoc.
Qed.

Lemma rstrip_digits (s : string) : all_digits s = true -> rstrip s = s.
Proof.
  induction s as [|c s IH]; [done|]. rewrite all_digits_cons.
  intros [Hc Hs]%andb_prop. simpl. rewrite (IH Hs).
  destruct s; [|done]. by rewrite (is_digit_not_space _ Hc).
Qed.

Lemma all_digits_uint (d : Decimal.uint) :
  all_digits (NilEmpty.string_of_uint d) = true.
Proof. induction d; simpl; [done|..]; by rewrite all_digits_cons. Qed.

Lemma int_digits_step (c : ascii) (s : string) (acc : Z) (b : bool) :
  is_digit c = true ->
  int_digits (String c s) acc b
  = int_digits s (10 * acc + (Z.of_N (N_of_ascii c) - 48)) true.
Proof. intros H. simpl. by rewrite H. Qed.

Lemma int_digits_uint (d : Decimal.uint) (acc : nat) :
  int_digits (NilEmpty.string_of_uint d) (Z.of_nat acc) true
  = Some (Z.of_nat (Nat.of_uint_acc d acc)).
Proof.
  revert acc. induction d as [|d IH|d IH|d IH|d IH|d IH|d IH|d IH|d IH|d IH|d IH];
    intros acc; [done|..];
    cbn [NilEmpty.string_of_uint Nat.of_uint_acc];
    rewrite int_digits_step by reflexivity;
    rewrite <- IH; f_equal;
    match goal with
    | |- context [Z.of_N (N_of_ascii ?c)] =>
        let v := eval vm_compute in (Z.of_N (N_of_ascii c)) in
        change (Z.of_N (N_of_ascii c)) with v
    end;
    rewrite Nat.tail_mul_spec; cbv zeta; lia.
Qed.

(** A text that starts with a digit and holds digits only is read by [int]
    as it stands: no stripping, no sign. *)
Lemma int_of_str_digits (c : ascii) (s : string) :
  all_digits (String c s) = true ->
  int_of_str (String c s) = int_digits (String c s) 0 false.
Proof.
  intros H. unfold int_of_str. rewrite all_digits_cons in H.
  apply andb_prop in H as [Hc Hs].
  assert (lstrip (String c s) = String c s) as ->
    by (simpl; by rewrite (is_digit_not_space _ Hc)).
  rewrite rstrip_digits by (by rewrite all_digits_cons, Hc, Hs).
  destruct c as [[] [] [] [] [] [] [] []]; (discriminate || reflexivity).
Qed.

(** [int(str(n)) == n]. *)
Lemma int_of_str_of_nat (n : nat) : int_of_str (str_of_nat n) = Some (Z.of_nat n).
Proof.
  unfold str_of_nat.
  rewrite <- (DecimalNat.Unsigned.of_to n) at 2.
  destruct (Nat.to_uint n) as [|d|d|d|d|d|d|d|d|d|d]; [reflexivity|..];
    unfold NilZero.string_of_uint;
    match goal with
    | |- int_of_str (NilEmpty.string_of_uint ?u) = _ =>
        pose proof (all_digits_uint u) as Hu
    end;
    cbn [NilEmpty.string_of_uint] in *;
    rewrite (int_of_str_digits _ _ Hu);
    rewrite int_digits_step by reflexivity;
    match goal with
    | |- context [Z.of_N (N_of_ascii ?c)] =>
        let v := eval vm_compute in (Z.of_N (N_of_ascii c)) in
        change (Z.of_N (N_of_ascii c)) with v
    end;
    (etransitivity; [|apply int_digits_uint]); reflexivity.
Qed.

End PyMore.

(* ===================================================================== *)
(** * The reverse proxy: further properties                              *)
(* ===================================================================== *)

Module ProxyMore.
Import Py PyFacts PyMore ReverseProxy ProxyFacts Samples.

(** What each handler comes to, with the two branches of [do_GET] and of
    [do_POST] written as one choice of backend. *)
Lemma handle_normal_form vs dt urlopen (m : Method) (self : Handler) :
  handle vs dt urlopen m self =
  let d := dict_of_message (headers self) in
  let send b meth body :=
    Returned (_proxy_request vs dt urlopen (base_url b +:+ path self)
                meth body d initial) in
  match m with
  | GET =>
      send (if startswith (path self) "/health" then LogSink else Assets)
           "GET" None
  | POST =>
      match content_length self with
      | None => Raised ValueError initial
      | Some n =>
          send (if startswith (path self) "/logs" then LogSink else Assets)
               "POST" (read_body self n)
      end
  | OPTIONS => do_OPTIONS vs dt self initial
  | PUT =>
      match content_length self with
      | None => Raised ValueError initial
      | Some n => send Assets "PUT" (read_body self n)
      end
  | DELETE => send Assets "DELETE" None
  end.
Proof.
  cbv zeta. destruct m; unfold handle, do_GET, do_POST, do_PUT, do_DELETE;
    rewrite ?ProxySpec.eq_or_startswith; try reflexivity.
  - by destruct (startswith (path self) "/health").
  - by destruct (startswith (path self) "/logs"), (content_length self).
Qed.











Lemma count_connection_relayed (hs : Message) :
  count_named "Connection" (List.filter (fun kv => is_relayed (fst kv)) hs)
  = 0%nat.
Proof.
  unfold count_named. change (lower "Connection") with "connection".
  induction hs as [|[k v] hs IH]; [done|]. simpl List.filter.
  unfold is_relayed at 1. cbn [fst].
  destruct (String.eqb (lower k) "connection") eqn:E; cbn [negb]; [exact IH|].
  simpl List.filter. cbn [fst]. by rewrite E.
Qed.

(** X6.  No response the proxy writes carries a Connection header, however
    the backend spelled the name. *)
Theorem no_connection_header_sent vs dt urlopen (m : Method) (self : Handler) :
  count_named "Connection"
    (sent_headers (conn (state_of (handle vs dt urlopen m self)))) = 0%nat.
Proof.
  assert (forall url meth body d,
    count_named "Connection"
      (sent_headers (conn (_proxy_request vs dt urlopen url meth body d initial)))
    = 0%nat) as Hp.
  { intros. unfold _proxy_request.
    destruct (urlopen _ _) as [status hs response_data| |];
      cbn [on_conn conn initial]; [|reflexivity..].
    rewrite ProxySpec.relay_headers_eq.
    unfold Py.send_response, send_header, end_headers, wfile_write.
    cbn [sent_headers status_line headers_ended wfile fresh_conn fst snd].
    rewrite !ProxySpec.count_named_app, count_connection_relayed.
    reflexivity. }
  rewrite handle_normal_form. cbv zeta.
  destruct m; try destruct (content_length self); cbn [state_of];
    first [apply Hp | reflexivity].
Qed.

Lemma copy_fold_origin (d : Dict) (req : Request) (K v : string) :
  Py.headers (fold_left copy_step d req) !! K = Some v ->
  Py.headers req !! K = Some v
  \/ (exists k, (k, v) ∈ d /\ is_copied k = true /\ capitalize k = K).
Proof.
  revert req. induction d as [|[k0 v0] d IH]; intros req; simpl; [by left|].
  intros H. destruct (IH _ H) as [Hreq|(k & Hin & Hc & HK)].
  - destruct (is_copied k0) eqn:E; [|by left]. simpl in Hreq.
    destruct (decide (capitalize k0 = K)) as [HK|HK].
    + rewrite HK, lookup_insert_eq in Hreq. injection Hreq as <-.
      right. exists k0. split; [by left|done].
    + rewrite lookup_insert_ne in Hreq by done. by left.
  - right. exists k. split; [by right|done].
Qed.

(** X7.  The proxy invents no header: whatever a forwarded request carries
    is either the Content-Length the proxy computed for a non-empty body,
    or the value [self.headers] holds for an inbound name that is not
    Host, Connection or Content-Length. *)
Theorem outbound_headers_come_from_inbound vs dt urlopen (m : Method)
    (self : Handler) (req : Request) (t : Z) (K v : string) :
  (req, t) ∈ calls (state_of (handle vs dt urlopen m self)) ->
  Py.headers req !! K = Some v ->
  (K = "Content-length" /\ truthy (data req) = true
   /\ v = str_of_nat (body_len (data req)))
  \/ (exists name,
        msg_get (headers self) name = Some v
        /\ is_copied name = true /\ K = capitalize name).
Proof.
  intros Hin.
  destruct (handle_calls _ _ _ _ _ _ _ Hin) as (_ & url & meth & body & ->).
  destruct (build_request_fields url meth body (dict_of_message (headers self)))
    as (-> & _).
  rewrite build_request_eq. cbv zeta. intros H.
  assert (Py.headers (fold_left copy_step (dict_of_message (headers self))
                        (Request_new url body meth)) !! K = Some v ->
          exists name, msg_get (headers self) name = Some v
                       /\ is_copied name = true /\ K = capitalize name) as Hcopy.
  { intros Hk. destruct (copy_fold_origin _ _ _ _ Hk) as [?|(k & Hk' & Hc & <-)];
      [done|].
    exists k. split; [by apply dict_of_message_entries|done]. }
  destruct (truthy body) eqn:Hb; [|right; by apply Hcopy].
  cbn in H. destruct (decide ("Content-length" = K)) as [<-|Hne].
  - rewrite lookup_insert_eq in H. injection H as <-. by left.
  - rewrite lookup_insert_ne in H by done. right. by apply Hcopy.
Qed.

Lemma outbound_headers_come_from_inbound_witness :
  (post_logs_request, 10)
    ∈ calls (state_of (handle server date backend_ok POST post_logs))
  /\ Py.headers post_logs_request !! "X-trace" = Some "abc"
  /\ (("X-trace" = "Content-length" /\ truthy (data post_logs_request) = true
       /\ "abc" = str_of_nat (body_len (data post_logs_request)))
      \/ (exists name,
            msg_get (headers post_logs) name = Some "abc"
            /\ is_copied name = true /\ "X-trace" = capitalize name)).
Proof.
  assert ((post_logs_request, 10)
            ∈ calls (state_of (handle server date backend_ok POST post_logs)))
    as Hin by (by left).
  split; [exact Hin|]. split; [reflexivity|].
  apply (outbound_headers_come_from_inbound server date backend_ok POST
           post_logs post_logs_request 10 "X-trace" "abc" Hin eq_refl).
Defined.

End ProxyMore.

(* ===================================================================== *)
(** * The log sink: further properties                                   *)
(* ===================================================================== *)

Module SinkMore.
Import Py PyMore LogServer Samples.

Section Sink.
Variables (version_string date_time_string : string).
Variable gzip_decompress : bytes -> option bytes.
Variable decode_utf8 : bytes -> option string.
Variable json_loads : string -> Loads.
Variable json_dumps : bool -> JSON -> string.
Variable py_str : JSON -> string.
Variable str_exn : Exn -> string.
Variable can_open : string -> bool.
Variable can_write : string -> bool.
Variable clock : nat -> Instant.

Local Abbreviation POST :=
  (do_POST version_string date_time_string gzip_decompress decode_utf8
     json_loads json_dumps py_str str_exn can_open can_write clock).
Local Abbreviation handle_logs :=
  (_handle_logs version_string date_time_string gzip_decompress decode_utf8
     json_loads json_dumps py_str str_exn can_open can_write clock).
Local Abbreviation text_of self n :=
  (read_text gzip_decompress decode_utf8 self n
     (default "" (msg_get (headers self) "Content-Encoding"))).
Local Abbreviation line_of device_id :=
  (fun r => json_dumps false
              (log_record device_id (isoformat (local (clock 0))) r)).
Local Abbreviation file_of device_id :=
  (log_file_name (fstr py_str device_id) (local (clock 1))).
Local Abbreviation rejected := (LogServer.rejected version_string date_time_string).
Local Abbreviation not_found := (LogServer.not_found version_string date_time_string).
Local Abbreviation accepted :=
  (LogServer.accepted version_string date_time_string json_dumps).
Local Abbreviation failed :=
  (LogServer.failed version_string date_time_string json_dumps str_exn).

(** The loop over the entries only appends lines; when it runs to the end,
    every entry was an object and got its line. *)
Lemma write_entries_inv device_id timestamp (entries : list JSON)
    (eff eff' : Effects) (r : option Exn) :
  write_entries json_dumps can_write device_id timestamp entries eff = (r, eff') ->
  conn eff' = conn eff
  /\ log_file eff' = log_file eff
  /\ (exists records,
        lines eff'
        = (lines eff
           ++ map (fun e => json_dumps false (log_record device_id timestamp e))
                  records)%list
        /\ (length records <= length entries)%nat
        /\ (r = None -> entries = map JDict records)).
Proof.
  revert eff. induction entries as [|entry entries IH]; intros eff; simpl.
  - intros [= <- <-]. repeat split. exists []. by rewrite app_nil_r.
  - assert (forall e, (Some e, eff) = (r, eff') ->
      conn eff' = conn eff /\ log_file eff' = log_file eff
      /\ (exists records,
            lines eff'
            = (lines eff
               ++ map (fun e => json_dumps false
                                  (log_record device_id timestamp e)) records)%list
            /\ (length records <= S (length entries))%nat
            /\ (r = None -> entry :: entries = map JDict records))) as Hfail.
    { intros e [= <- <-]. repeat split. exists []. rewrite app_nil_r.
      repeat split; [simpl; lia|done]. }
    destruct entry as [| | | | | |items]; try apply Hfail.
    destruct (can_write _); [|apply Hfail].
    intros H. destruct (IH _ H) as (Hc & Hf & records & Hl & Hlen & Hr).
    cbn in Hc, Hf, Hl. repeat split; [done..|].
    exists (items :: records). rewrite Hl, <- app_assoc. simpl.
    repeat split; [lia|]. intros Hnone. by rewrite (Hr Hnone).
Qed.

Lemma not_posted_to_logs (self : Handler) :
  ~ (path self = "/logs" \/ path self = "/") ->
  (String.eqb (path self) "/logs" || String.eqb (path self) "/") = false.
Proof.
  intros H. destruct (String.eqb_spec (path self) "/logs"); [tauto|].
  destruct (String.eqb_spec (path self) "/"); [tauto|done].
Qed.

Lemma respond_500_fresh (e : Exn) (file : option string) (written : list string) :
  respond_500 version_string date_time_string json_dumps str_exn e
    (mkEffects fresh_conn file written) = failed e file written.
Proof. reflexivity. Qed.

Lemma respond_400_initial :
  respond_400 version_string date_time_string initial = rejected.
Proof. reflexivity. Qed.

(** What [process_logs] does to the effects of a request that has written
    nothing to the client yet. *)
Lemma process_logs_cases (v : JSON) :
  (exists file written,
     process_logs version_string date_time_string json_dumps py_str
       can_open can_write clock v initial
     = (None, accepted file written (length written)))
  \/ (exists e file written,
        process_logs version_string date_time_string json_dumps py_str
          can_open can_write clock v initial
        = (Some e, mkEffects fresh_conn file written)).
Proof.
  unfold process_logs.
  destruct v as [| | | | | |items].
  1-6: (right; eexists _, None, []; reflexivity).
  cbv zeta.
  destruct (can_open _); [|right; eexists _, None, []; reflexivity].
  destruct (iter _) as [entries|];
    [|right; eexists _, (Some _), []; reflexivity].
  destruct (write_entries _ _ _ _ _ _) as [r eff'] eqn:Hw.
  destruct (write_entries_inv _ _ _ _ _ _ Hw)
    as (Hc & Hf & records & Hl & _ & Hr).
  destruct eff' as [c f l]. cbn [conn log_file lines initial app] in Hc, Hf, Hl.
  subst c f l.
  destruct r as [e|].
  - right. eexists e, (Some _), _. reflexivity.
  - left.
    eexists _, (map (fun e => json_dumps false
                                (log_record _ (isoformat (local (clock 0))) e))
                    records).
    rewrite (Hr eq_refl), !length_map. reflexivity.
Qed.

(** [_handle_logs] ends in one of three ways. *)
Lemma handle_logs_cases (self : Handler) :
  handle_logs self initial = rejected
  \/ (exists file written,
        handle_logs self initial = accepted file written (length written))
  \/ (exists e file written, handle_logs self initial = failed e file written).
Proof.
  unfold _handle_logs, try_handle_logs.
  destruct (read_content_length self) as [n|e];
    [|right; right; exists e, None, []; apply respond_500_fresh].
  destruct (n =? 0); [left; apply respond_400_initial|].
  destruct (read_text gzip_decompress decode_utf8 self n _) as [text|e];
    [|right; right; exists e, None, []; apply respond_500_fresh].
  destruct (json_loads text) as [v| |];
    [|left; apply respond_400_initial
     |right; right; exists (LoadsError text), None, []; apply respond_500_fresh].
  destruct (process_logs_cases v)
    as [(file & written & ->)|(e & file & written & ->)].
  - right; left. by exists file, written.
  - right; right. exists e, file, written. apply respond_500_fresh.
Qed.

(** X8.  Every POST to the sink ends in one of four complete responses:
    404 for a path other than /logs and /, 400, 200 with as many lines
    written as it reports received, or 500 from the [except] clause; no
    exception leaves the handler. *)
Theorem post_outcomes (self : Handler) :
  (POST self initial = not_found
   /\ ~ (path self = "/logs" \/ path self = "/"))
  \/ ((path self = "/logs" \/ path self = "/")
      /\ (POST self initial = rejected
          \/ (exists file written,
                POST self initial = accepted file written (length written))
          \/ (exists e file written, POST self initial = failed e file written))).
Proof.
  unfold do_POST.
  destruct (decide (path self = "/logs" \/ path self = "/")) as [Hp|Hp].
  - right. split; [done|]. rewrite (SinkSpec.posted_to_logs _ Hp). apply handle_logs_cases.
  - left. by rewrite (not_posted_to_logs _ Hp).
Qed.

(** X9.  The sink never acknowledges what it did not write: a response
    with status 200 means that a file was opened and that the number of
    lines appended is the number reported as received. *)
Theorem ok_means_all_written (self : Handler) :
  status_line (conn (POST self initial)) = Some 200 ->
  exists file written,
    POST self initial = accepted file written (length written).
Proof.
  intros H.
  destruct (post_outcomes self)
    as [[E _]|[_ [E|[(file & written & E)|(e & file & written & E)]]]];
    rewrite E in H; try discriminate H.
  by exists file, written.
Qed.

Lemma post_after_parse (self : Handler) (n : Z) (text : string) :
  path self = "/logs" \/ path self = "/" ->
  read_content_length self = inl n ->
  n <> 0 ->
  text_of self n = inl text ->
  POST self initial =
  match json_loads text with
  | Loaded v =>
      match process_logs version_string date_time_string json_dumps py_str
              can_open can_write clock v initial with
      | (None, eff) => eff
      | (Some e, eff) =>
          respond_500 version_string date_time_string json_dumps str_exn e eff
      end
  | JSONDecodeError => rejected
  | LoadsFailed => failed (LoadsError text) None []
  end.
Proof.
  intros Hpath Hlen Hn Htext. unfold do_POST. rewrite (SinkSpec.posted_to_logs _ Hpath).
  unfold _handle_logs, try_handle_logs. rewrite Hlen.
  destruct (Z.eqb_spec n 0) as [|_]; [done|]. rewrite Htext.
  by destruct (json_loads text).
Qed.

(** X10.  A Content-Length that [int] rejects is caught by the sink's own
    [try]: the answer is a complete 500 naming the error, and no file is
    touched. *)
Theorem unparsable_length_answered_500 (self : Handler) (v : string) :
  path self = "/logs" \/ path self = "/" ->
  msg_get (headers self) "Content-Length" = Some v ->
  int_of_str v = None ->
  POST self initial = failed (ValueError v) None [].
Proof.
  intros Hpath Hv Hint. unfold do_POST. rewrite (SinkSpec.posted_to_logs _ Hpath).
  unfold _handle_logs, try_handle_logs, read_content_length.
  rewrite Hv, Hint. apply respond_500_fresh.
Qed.

(** X11.  Failures before the file is opened are answered 500, never 400,
    and leave no trace on disk: a body that cannot be decompressed or
    decoded, a text [json.loads] fails on other than by JSONDecodeError,
    JSON that is not an object, and an object whose file cannot be opened. *)
Theorem early_failures_answered_500 (self : Handler) (n : Z) :
  path self = "/logs" \/ path self = "/" ->
  read_content_length self = inl n ->
  n <> 0 ->
  (forall e, text_of self n = inr e -> POST self initial = failed e None [])
  /\ (forall text,
        text_of self n = inl text ->
        (json_loads text = LoadsFailed ->
         POST self initial = failed (LoadsError text) None [])
        /\ (forall v,
              json_loads text = Loaded v ->
              (forall items, v <> JDict items) ->
              POST self initial = failed (AttributeError v) None [])
        /\ (forall items,
              json_loads text = Loaded (JDict items) ->
              can_open (file_of (get items "device_id" (JStr "unknown"))) = false ->
              POST self initial
              = failed (OSError (file_of (get items "device_id" (JStr "unknown"))))
                       None [])).
Proof.
  intros Hpath Hlen Hn. split.
  - intros e He. unfold do_POST. rewrite (SinkSpec.posted_to_logs _ Hpath).
    unfold _handle_logs, try_handle_logs. rewrite Hlen.
    destruct (Z.eqb_spec n 0) as [|_]; [done|]. rewrite He.
    apply respond_500_fresh.
  - intros text Htext. rewrite (post_after_parse _ _ _ Hpath Hlen Hn Htext).
    split; [by intros ->|]. split.
    + intros v -> Hv. unfold process_logs.
      destruct v as [| | | | | |items]; try apply respond_500_fresh.
      by destruct (Hv items).
    + intros items -> Hopen. unfold process_logs, datetime_now. cbv zeta.
      unfold log_file_name in Hopen. rewrite Hopen. apply respond_500_fresh.
Qed.

Lemma write_entries_bad device_id timestamp
    (good : list (list (string * JSON))) (bad : JSON) (rest : list JSON)
    (eff : Effects) :
  (forall r, bad <> JDict r) ->
  Forall (fun r => can_write
            (json_dumps false (log_record device_id timestamp r)) = true)
         good ->
  write_entries json_dumps can_write device_id timestamp
    (map JDict good ++ bad :: rest) eff
  = (Some (AttributeError bad),
     mkEffects (conn eff) (log_file eff)
       (lines eff
        ++ map (fun r => json_dumps false (log_record device_id timestamp r))
               good)).
Proof.
  intros Hbad H. revert eff.
  induction H as [|r good Hr _ IH]; intros eff; simpl.
  - rewrite app_nil_r.
    destruct bad as [| | | | | |items]; try (by destruct eff).
    by destruct (Hbad items).
  - rewrite Hr, IH. simpl. by rewrite <- app_assoc.
Qed.

(** X12.  A batch is not atomic: when an entry is not an object, the lines
    of the entries before it are already appended to the file, the entries
    after it are dropped, and the whole request is answered 500. *)
Theorem partial_batch_persisted (self : Handler) (n : Z) (text : string)
    (items : list (string * JSON)) (good : list (list (string * JSON)))
    (bad : JSON) (rest : list JSON) :
  path self = "/logs" \/ path self = "/" ->
  read_content_length self = inl n ->
  n <> 0 ->
  text_of self n = inl text ->
  json_loads text = Loaded (JDict items) ->
  get items "logs" (JList []) = JList (map JDict good ++ bad :: rest) ->
  (forall r, bad <> JDict r) ->
  can_open (file_of (get items "device_id" (JStr "unknown"))) = true ->
  Forall (fun r => can_write
            (line_of (get items "device_id" (JStr "unknown")) r) = true)
         good ->
  POST self initial
  = failed (AttributeError bad)
      (Some (file_of (get items "device_id" (JStr "unknown"))))
      (map (line_of (get items "device_id" (JStr "unknown"))) good).
Proof.
  intros Hpath Hlen Hn Htext Hjson Hlogs Hbad Hopen Hwrite.
  rewrite (post_after_parse _ _ _ Hpath Hlen Hn Htext), Hjson.
  unfold process_logs, datetime_now. cbv zeta.
  unfold log_file_name in Hopen. rewrite Hlogs, Hopen. cbn [iter].
  rewrite (write_entries_bad _ _ _ _ _ _ Hbad Hwrite).
  apply respond_500_fresh.
Qed.

(** X13.  A request that announces the true length of its body is read
    whole: [int] gives back the length [str] wrote, and the read returns
    every byte of the stream. *)
Theorem announced_body_read_whole (self : Handler) :
  msg_get (headers self) "Content-Length"
    = Some (str_of_nat (length (rfile self))) ->
  read_content_length self = inl (Z.of_nat (length (rfile self)))
  /\ rfile_read self (Z.of_nat (length (rfile self))) = rfile self.
Proof.
  intros H. unfold read_content_length, rfile_read.
  rewrite H, int_of_str_of_nat. split; [done|].
  destruct (Z.ltb_spec (Z.of_nat (length (rfile self))) 0); [lia|].
  by rewrite Nat2Z.id, firstn_all.
Qed.

(** X16.  The health probe answers 200 for the paths /health and / only;
    every other path, however it begins, gets the bare 404, and no GET
    touches a file. *)
Theorem health_probe_exact_paths (self : Handler) :
  let eff := do_GET version_string date_time_string json_dumps self initial in
  (status_line (conn eff) = Some 200
   <-> (path self = "/health" \/ path self = "/"))
  /\ (~ (path self = "/health" \/ path self = "/") -> eff = not_found)
  /\ log_file eff = None /\ lines eff = [].
Proof.
  cbv zeta. unfold do_GET.
  destruct (String.eqb_spec (path self) "/health") as [E1|E1];
    [|destruct (String.eqb_spec (path self) "/") as [E2|E2]]; cbn [orb].
  - repeat split; try done; tauto.
  - repeat split; try done; tauto.
  - repeat split; try done; try tauto; discriminate.
Qed.

End Sink.

Lemma ok_means_all_written_witness :
  status_line (conn (sink (sink_post text_batch))) = Some 200
  /\ exists file written,
       sink (sink_post text_batch)
       = LogServer.accepted server date sample_dumps file written
           (length written).
Proof.
  split; [reflexivity|].
  apply (ok_means_all_written server date sample_gunzip sample_decode
           sample_loads sample_dumps sample_str sample_str_exn
           sample_can_open sample_can_write sample_clock
           (sink_post text_batch) eq_refl).
Defined.

Lemma unparsable_length_answered_500_witness :
  int_of_str "abc" = None
  /\ sink sink_bad_length
     = LogServer.failed server date sample_dumps sample_str_exn
         (ValueError "abc") None [].
Proof.
  split; [reflexivity|].
  apply (unparsable_length_answered_500 server date sample_gunzip
           sample_decode sample_loads sample_dumps sample_str sample_str_exn
           sample_can_open sample_can_write sample_clock
           sink_bad_length "abc" ltac:(by left) eq_refl eq_refl).
Defined.

Lemma early_failures_answered_500_witness :
  read_content_length sink_not_utf8 = inl 1
  /\ sink sink_not_utf8
     = LogServer.failed server date sample_dumps sample_str_exn
         (UnicodeDecodeError [Byte.xff]) None [].
Proof.
  split; [reflexivity|].
  destruct (early_failures_answered_500 server date sample_gunzip
              sample_decode sample_loads sample_dumps sample_str
              sample_str_exn sample_can_open sample_can_write sample_clock
              sink_not_utf8 1 ltac:(by left) eq_refl ltac:(done)) as [H _].
  apply (H _ eq_refl).
Defined.

Lemma partial_batch_persisted_witness :
  sample_loads_mixed text_mixed = Loaded value_mixed
  /\ sink_mixed (sink_post text_mixed)
     = LogServer.failed server date sample_dumps sample_str_exn
         (AttributeError (JInt 1)) (Some "unknown_20241104.log")
         [dumps (JDict [("timestamp", JStr "2024-11-04T00:30:00");
                        ("level", JStr "DEBUG");
                        ("component", JStr "");
                        ("message", JStr "");
                        ("device_id", JStr "unknown")])].
Proof.
  split; [reflexivity|].
  apply (partial_batch_persisted server date sample_gunzip sample_decode
           sample_loads_mixed sample_dumps sample_str sample_str_exn
           sample_can_open sample_can_write sample_clock
           (sink_post text_mixed) _ text_mixed
           [("logs", JList [JDict []; JInt 1])] [[]] (JInt 1) []
           ltac:(by left) eq_refl ltac:(done) eq_refl eq_refl eq_refl
           ltac:(done) eq_refl).
  by repeat constructor.
Defined.

Lemma announced_body_read_whole_witness :
  msg_get (headers (sink_post text_batch)) "Content-Length"
    = Some (str_of_nat (length (rfile (sink_post text_batch))))
  /\ rfile_read (sink_post text_batch)
       (Z.of_nat (length (rfile (sink_post text_batch))))
     = rfile (sink_post text_batch).
Proof.
  split; [reflexivity|].
  apply (announced_body_read_whole (sink_post text_batch) eq_refl).
Defined.

End SinkMore.

(* ===================================================================== *)
(** * The log sink: file names                                           *)
(* ===================================================================== *)

Module DateKeys.
Import Py PyMore LogServer Samples.

Lemma length_append (a b : string) :
  String.length (a +:+ b) = (String.length a + String.length b)%nat.
Proof. induction a as [|c a IH]; simpl; [done|]. by rewrite IH. Qed.

Lemma append_inj_length (a a' b b' : string) :
  String.length a = String.length a' ->
  a +:+ b = a' +:+ b' -> a = a' /\ b = b'.
Proof.
  revert a'. induction a as [|c a IH]; intros [|c' a']; simpl; try done.
  intros [= Hl] [= -> H]. destruct (IH _ Hl H) as [-> ->]. done.
Qed.

(** A suffix of known length can be split off. *)
Lemma append_inj_suffix (a a' b b' : string) :
  String.length b = String.length b' ->
  a +:+ b = a' +:+ b' -> a = a' /\ b = b'.
Proof.
  intros Hl H. apply append_inj_length; [|done].
  apply (f_equal String.length) in H. rewrite !length_append in H. lia.
Qed.

(** The padded numbers of a date, checked one by one: the right width,
    digits only, and read back by [int] as the number itself. *)
Lemma pad_checked (width lo count : nat) :
  forallb
    (fun y =>
       Nat.eqb (String.length (pad width y)) width
       && all_digits (pad width y)
       && match int_of_str (pad width y) with
          | Some z => Z.eqb z (Z.of_nat y)
          | None => false
          end)
    (seq lo count) = true ->
  forall y, (lo <= y < lo + count)%nat ->
    String.length (pad width y) = width
    /\ all_digits (pad width y) = true
    /\ int_of_str (pad width y) = Some (Z.of_nat y).
Proof.
  intros H y Hy. rewrite forallb_forall in H.
  specialize (H y (proj2 (in_seq count lo y) Hy)).
  apply andb_prop in H as [H H3]. apply andb_prop in H as [H1 H2].
  split; [by apply Nat.eqb_eq|]. split; [done|].
  destruct (int_of_str (pad width y)) as [z|]; [|done].
  by apply Z.eqb_eq in H3 as ->.
Qed.

Lemma pad_year (y : nat) :
  1000 <= Z.of_nat y <= 9999 ->
  String.length (pad 4 y) = 4%nat
  /\ all_digits (pad 4 y) = true
  /\ int_of_str (pad 4 y) = Some (Z.of_nat y).
Proof.
  intros H. apply (pad_checked 4 1000 (Z.to_nat 9000)); [by vm_compute|lia].
Qed.

Lemma pad_two (n : nat) :
  0 <= Z.of_nat n <= 99 ->
  String.length (pad 2 n) = 2%nat
  /\ all_digits (pad 2 n) = true
  /\ int_of_str (pad 2 n) = Some (Z.of_nat n).
Proof.
  intros H. apply (pad_checked 2 0 100); [by vm_compute|lia].
Qed.

(** X14.  For every date a [datetime] from year 1000 on can hold, the date
    part of the file name is eight decimal digits. *)
Theorem date_key_shape (dt : DateTime) :
  valid_date dt ->
  String.length (strftime_Ymd dt) = 8%nat
  /\ all_digits (strftime_Ymd dt) = true.
Proof.
  intros (Hy & Hm & Hd). unfold strftime_Ymd.
  destruct (pad_year (year dt) Hy) as (Ly & Dy & _).
  destruct (pad_two (month dt)) as (Lm & Dm & _); [lia|].
  destruct (pad_two (day dt)) as (Ld & Dd & _); [lia|].
  rewrite !length_append, !all_digits_app, Ly, Lm, Ld, Dy, Dm, Dd. done.
Qed.

Lemma date_key_inj (dt1 dt2 : DateTime) :
  valid_date dt1 -> valid_date dt2 ->
  strftime_Ymd dt1 = strftime_Ymd dt2 ->
  year dt1 = year dt2 /\ month dt1 = month dt2 /\ day dt1 = day dt2.
Proof.
  intros (Hy1 & Hm1 & Hd1) (Hy2 & Hm2 & Hd2). unfold strftime_Ymd.
  destruct (pad_year (year dt1) Hy1) as (Ly1 & _ & Iy1).
  destruct (pad_year (year dt2) Hy2) as (Ly2 & _ & Iy2).
  destruct (pad_two (month dt1)) as (Lm1 & _ & Im1); [lia|].
  destruct (pad_two (month dt2)) as (Lm2 & _ & Im2); [lia|].
  destruct (pad_two (day dt1)) as (_ & _ & Id1); [lia|].
  destruct (pad_two (day dt2)) as (_ & _ & Id2); [lia|].
  intros H.
  apply append_inj_length in H as [Ey H]; [|by rewrite Ly1, Ly2].
  apply append_inj_length in H as [Em Ed]; [|by rewrite Lm1, Lm2].
  rewrite Ey, Iy2 in Iy1. rewrite Em, Im2 in Im1. rewrite Ed, Id2 in Id1.
  injection Iy1 as Iy1. injection Im1 as Im1. injection Id1 as Id1. lia.
Qed.

(** X15.  One file per device and day: two file names are equal only for
    the same device text and the same calendar day. *)
Theorem log_file_name_injective (device1 device2 : string)
    (dt1 dt2 : DateTime) :
  valid_date dt1 -> valid_date dt2 ->
  log_file_name device1 dt1 = log_file_name device2 dt2 ->
  device1 = device2
  /\ year dt1 = year dt2 /\ month dt1 = month dt2 /\ day dt1 = day dt2.
Proof.
  intros H1 H2. unfold log_file_name. intros H.
  destruct (date_key_shape dt1 H1) as [L1 _].
  destruct (date_key_shape dt2 H2) as [L2 _].
  apply append_inj_suffix in H as [-> H];
    [|by rewrite !length_append, L1, L2].
  split; [done|].
  change (String "_" (strftime_Ymd dt1 +:+ ".log")
          = String "_" (strftime_Ymd dt2 +:+ ".log")) in H.
  injection H as H.
  apply append_inj_length in H as [H _]; [|by rewrite L1, L2].
  by apply date_key_inj.
Qed.

Lemma date_key_shape_witness :
  valid_date (local (sample_clock 1))
  /\ String.length (strftime_Ymd (local (sample_clock 1))) = 8%nat
  /\ all_digits (strftime_Ymd (local (sample_clock 1))) = true.
Proof.
  assert (valid_date (local (sample_clock 1))) as H
    by (unfold valid_date; simpl; lia).
  split; [exact H|]. apply (date_key_shape _ H).
Defined.

Lemma log_file_name_injective_witness :
  valid_date (local (sample_clock 1))
  /\ log_file_name "dev1" (local (sample_clock 1))
     = log_file_name "dev1" (local (sample_clock 0))
  /\ "dev1" = "dev1"
  /\ year (local (sample_clock 1)) = year (local (sample_clock 0))
  /\ month (local (sample_clock 1)) = month (local (sample_clock 0))
  /\ day (local (sample_clock 1)) = day (local (sample_clock 0)).
Proof.
  assert (valid_date (local (sample_clock 1))) as H
    by (unfold valid_date; simpl; lia).
  split; [exact H|]. split; [reflexivity|].
  apply (log_file_name_injective "dev1" "dev1" _ _ H H eq_refl).
Defined.

End DateKeys.

(* ===================================================================== *)
(** * The proxy in front of its two backends                             *)
(* ===================================================================== *)

Module Tier.
Import Py PyFacts ReverseProxy ProxyFacts Samples.

(** The response [_proxy_request] relays when the backend answers. *)
Lemma proxy_success_conn vs dt urlopen url meth body (d : Dict)
    (status : Z) (hs : Message) (response_data : bytes) :
  urlopen (build_request url meth body d) 10 = Response status hs response_data ->
  conn (_proxy_request vs dt urlopen url meth body d initial)
  = mkConn (Some status)
      ([("Server", vs); ("Date", dt)]
       ++ List.filter (fun kv => is_relayed (fst kv)) hs
       ++ [cors_origin; cors_methods; cors_headers])
      true response_data.
Proof.
  intros H. unfold _proxy_request. rewrite H.
  cbn [on_conn conn initial]. rewrite ProxySpec.relay_headers_eq.
  unfold Py.send_response, send_header, end_headers, wfile_write.
  cbn [sent_headers status_line headers_ended wfile fresh_conn fst snd].
  by rewrite <- !app_assoc.
Qed.

(** X17.  Whatever the asset server answers goes through its
    [end_headers]; relayed by the proxy, such a response keeps its
    Cache-Control header, carries two different Access-Control-Allow-Methods
    lines (the asset server's and the proxy's) and
    Access-Control-Allow-Origin at least twice. *)
Theorem asset_headers_through_proxy vs dt urlopen url meth body (d : Dict)
    (status : Z) (c : Conn) (response_data : bytes) :
  urlopen (build_request url meth body d) 10
  = Response status (sent_headers (AssetServer.end_headers c)) response_data ->
  let relayed :=
    sent_headers (conn (_proxy_request vs dt urlopen url meth body d initial)) in
  ("Cache-Control", "no-cache, no-store, must-revalidate") ∈ relayed
  /\ ("Access-Control-Allow-Methods", "GET, OPTIONS") ∈ relayed
  /\ ("Access-Control-Allow-Methods", "GET, POST, OPTIONS") ∈ relayed
  /\ (2 <= count_named "Access-Control-Allow-Origin" relayed)%nat.
Proof.
  intros H. cbv zeta. rewrite (proxy_success_conn _ _ _ _ _ _ _ _ _ _ H).
  cbn [sent_headers]. unfold AssetServer.end_headers, Py.end_headers, send_header.
  cbn [sent_headers status_line headers_ended wfile].
  rewrite <- !app_assoc, !List.filter_app.
  set (own := List.filter (fun kv => is_relayed (fst kv)) (sent_headers c)).
  repeat match goal with
         | |- context [List.filter ?f [?x]] =>
             let r := eval vm_compute in (List.filter f [x]) in
             change (List.filter f [x]) with r
         end.
  repeat split.
  - rewrite !elem_of_app, !elem_of_cons. tauto.
  - rewrite !elem_of_app, !elem_of_cons. tauto.
  - rewrite !elem_of_app, !elem_of_cons. unfold cors_methods. tauto.
  - rewrite !ProxySpec.count_named_app.
    generalize (count_named "Access-Control-Allow-Origin" own). intros k.
    repeat match goal with
           | |- context [count_named ?a ?l] =>
               let v := eval vm_compute in (count_named a l) in
               change (count_named a l) with v
           end.
    lia.
Qed.

Lemma asset_headers_through_proxy_witness :
  backend_assets (build_request "http://localhost:8002/ui.ht" "GET" None []) 10
  = Response 200
      (sent_headers
         (AssetServer.end_headers (Py.send_response server date 200 fresh_conn)))
      []
  /\ ("Cache-Control", "no-cache, no-store, must-revalidate")
       ∈ sent_headers
           (conn (_proxy_request server date backend_assets
                    "http://localhost:8002/ui.ht" "GET" None [] initial)).
Proof.
  split; [reflexivity|].
  apply (asset_headers_through_proxy server date backend_assets
           "http://localhost:8002/ui.ht" "GET" None [] 200 _ _ eq_refl).
Defined.



(** X19.  The end-to-end acknowledgement: when the sink accepts a batch and
    its response reaches the proxy, the client gets status 200 and the
    sink's body byte for byte, with Access-Control-Allow-Origin twice (the
    sink's own and the proxy's). *)
Theorem accepted_batch_relayed vs dt urlopen url meth body (d : Dict)
    vs' dt' (json_dumps : bool -> LogServer.JSON -> string)
    (file : string) (written : list string) (count : nat) :
  let ack := LogServer.conn (LogServer.accepted vs' dt' json_dumps file written count) in
  urlopen (build_request url meth body d) 10
  = Response 200 (sent_headers ack) (wfile ack) ->
  let c := conn (_proxy_request vs dt urlopen url meth body d initial) in
  status_line c = Some 200
  /\ wfile c
     = encode (json_dumps true
                 (LogServer.JDict
                    [("status", LogServer.JStr "ok");
                     ("received", LogServer.JInt (Z.of_nat count))]))
  /\ count_named "Access-Control-Allow-Origin" (sent_headers c) = 2%nat.
Proof.
  cbv zeta. intros H. rewrite (proxy_success_conn _ _ _ _ _ _ _ _ _ _ H).
  cbn [status_line wfile sent_headers LogServer.conn LogServer.accepted].
  split; [done|]. split; [done|].
  reflexivity.
Qed.

Lemma accepted_batch_relayed_witness :
  backend_sink_ack
    (build_request "http://localhost:8001/logs" "POST" None []) 10
  = Response 200 (sent_headers sink_ack) (wfile sink_ack)
  /\ status_line
       (conn (_proxy_request server date backend_sink_ack
                "http://localhost:8001/logs" "POST" None [] initial))
     = Some 200
  /\ count_named "Access-Control-Allow-Origin"
       (sent_headers
          (conn (_proxy_request server date backend_sink_ack
                   "http://localhost:8001/logs" "POST" None [] initial)))
     = 2%nat.
Proof.
  split; [reflexivity|].
  destruct (accepted_batch_relayed server date backend_sink_ack
              "http://localhost:8001/logs" "POST" None []
              server date sample_dumps "dev1_20241104.log" [] 1 eq_refl)
    as (H1 & _ & H2).
  split; [exact H1|exact H2].
Defined.

End Tier.
